(** * Feedback workflow of the participants dashboard (app.py)

    A shallow embedding of the session-state logic of [app.py]: the
    cluster-change reset, the persistence of a feedback note and the
    feedback section of the page script, followed by the properties the
    specification states about them. *)

From Stdlib Require Import ZArith NArith List String Ascii SpecFloat.
From stdpp Require Import base option list gmap strings.

Local Open Scope Z_scope.

(** ** Python strings *)

(** A Python [str] is a sequence of Unicode code points. *)
Abbreviation pystr := (list N).

(** A source literal written in ASCII, as a [pystr]. *)
Fixpoint lit (s : string) : pystr :=
  match s with
  | EmptyString => []
  | String a s' => N_of_ascii a :: lit s'
  end.

(** [str.isspace] for one code point: the characters CPython's
    [str.strip()] removes when called without an argument. *)
Definition is_space (c : N) : bool :=
  ((9 <=? c) && (c <=? 13) ||
   (28 <=? c) && (c <=? 32) ||
   (c =? 133) || (c =? 160) || (c =? 5760) ||
   (8192 <=? c) && (c <=? 8202) ||
   (c =? 8232) || (c =? 8233) || (c =? 8239) || (c =? 8287) ||
   (c =? 12288))%N.

Fixpoint lstrip (s : pystr) : pystr :=
  match s with
  | [] => []
  | c :: s' => if is_space c then lstrip s' else s
  end.

Definition rstrip (s : pystr) : pystr := reverse (lstrip (reverse s)).

(** [s.strip()] *)
Definition strip (s : pystr) : pystr := rstrip (lstrip s).

(** Truth value of a [str]: the empty string is false. *)
Definition truthy (s : pystr) : bool :=
  match s with [] => false | _ => true end.

(** What "trimmed" means: [t] is [s] without the run of white space at
    each of its two ends. *)
Definition trimmed_of (s t : pystr) : Prop :=
  ∃ l r, s = l ++ t ++ r ∧
    forallb is_space l = true ∧ forallb is_space r = true ∧
    (∀ c, head t = Some c → is_space c = false) ∧
    (∀ c, last t = Some c → is_space c = false).

(** ** Session state *)

(** [st.session_state], restricted to the four entries the script uses.
    Every field is an [option]: [None] means that the key is not in the
    session state.  [feedback_choice] holds Python's [None] or a string,
    so its present value is itself an [option]. *)
Record SessionState := {
  current_cluster_id : option pystr;
  feedback_choice : option (option pystr);
  feedback_comment_submitted : option bool;
  feedback_textarea : option pystr
}.

(** The session state of a new browser session: no key is set. *)
Definition empty_session : SessionState :=
  {| current_cluster_id := None; feedback_choice := None;
     feedback_comment_submitted := None; feedback_textarea := None |}.

Definition set_current_cluster_id (v : pystr) (ss : SessionState) :=
  {| current_cluster_id := Some v;
     feedback_choice := feedback_choice ss;
     feedback_comment_submitted := feedback_comment_submitted ss;
     feedback_textarea := feedback_textarea ss |}.

Definition set_feedback_choice (v : option pystr) (ss : SessionState) :=
  {| current_cluster_id := current_cluster_id ss;
     feedback_choice := Some v;
     feedback_comment_submitted := feedback_comment_submitted ss;
     feedback_textarea := feedback_textarea ss |}.

Definition set_feedback_comment_submitted (v : bool) (ss : SessionState) :=
  {| current_cluster_id := current_cluster_id ss;
     feedback_choice := feedback_choice ss;
     feedback_comment_submitted := Some v;
     feedback_textarea := feedback_textarea ss |}.

Definition set_feedback_textarea (v : pystr) (ss : SessionState) :=
  {| current_cluster_id := current_cluster_id ss;
     feedback_choice := feedback_choice ss;
     feedback_comment_submitted := feedback_comment_submitted ss;
     feedback_textarea := Some v |}.

(** [del st.session_state.feedback_textarea] *)
Definition del_feedback_textarea (ss : SessionState) :=
  {| current_cluster_id := current_cluster_id ss;
     feedback_choice := feedback_choice ss;
     feedback_comment_submitted := feedback_comment_submitted ss;
     feedback_textarea := None |}.

(** The feedback entries as both resets leave them (app.py 73-76 and
    152-155): choice [None], no comment submitted, no comment text. *)
Definition feedback_cleared (ss : SessionState) :=
  {| current_cluster_id := current_cluster_id ss;
     feedback_choice := Some None;
     feedback_comment_submitted := Some false;
     feedback_textarea := None |}.

(** The two values the script stores in [feedback_choice]. *)
Definition pasuje : pystr := lit "pasuje".
Definition nie_pasuje : pystr := lit "nie_pasuje".

(** [reset_feedback_on_cluster_change(new_cluster_id)], app.py 68-76. *)
Definition reset_feedback_on_cluster_change
    (new_cluster_id : pystr) (ss : SessionState) : SessionState :=
  match current_cluster_id ss with
  | None => set_current_cluster_id new_cluster_id ss
  | Some cur =>
      if decide (cur ≠ new_cluster_id) then
        let ss := set_current_cluster_id new_cluster_id ss in
        let ss := set_feedback_choice None ss in
        let ss := set_feedback_comment_submitted false ss in
        if decide (is_Some (feedback_textarea ss))
        then del_feedback_textarea ss
        else ss
      else ss
  end.

(** ** The note store *)

(** The float literal [0.0], as an IEEE 754 value. *)
Definition float_zero : spec_float := S754_zero false.

(** The [KeyError] of a dictionary read. *)
Inductive key_error := KeyError (key : string).

Module Qdrant.

(** [PointStruct(id=..., vector=..., payload=...)] *)
Record PointStruct := {
  id : Z;
  vector : list spec_float;
  payload : gmap string pystr
}.

(** What the script does with the service, whose state is a [DB]:
    [get_qdrant_client()], which raises the [KeyError] of a missing
    entry of [env] or returns the client, on a service that now has the
    collection [user_feedback]; and the two calls on the client for
    that collection, [client.count(..., exact=True).count] and
    [client.upsert(..., points=...)]. *)
Class Client (DB : Type) := {
  connect : DB → key_error + DB;
  count : DB → Z;
  upsert : list PointStruct → DB → DB
}.

End Qdrant.

(** Modelled from the spec: the note store of section 6, an append-only
    sequence of notes whose [count()] is the number of stored notes and
    whose client is there.  The Qdrant service behind the client is not
    part of the repository. *)
#[export] Instance note_store : Qdrant.Client (list Qdrant.PointStruct) := {|
  Qdrant.connect := λ db, inr db;
  Qdrant.count := λ db, Z.of_nat (length db);
  Qdrant.upsert := λ points db, db ++ points
|}.

(** ** One run of the page script *)

(** The buttons of the feedback section: "Opis pasuje do mnie",
    "Opis nie pasuje do mnie", "Wyślij uwagi" (key [submit_feedback])
    and "Zmień wybór". *)
Inductive button := btn_pasuje | btn_nie_pasuje | submit_feedback | btn_zmien_wybor.

#[export] Instance button_eq_dec : EqDecision button.
Proof. solve_decision. Defined.

(** What a run puts on the page, in the order of the calls. *)
Inductive element :=
  | Button (b : button)
  | Success (msg : string)
  | Info (msg : string)
  | Warning (msg : string)
  | TextArea (value : pystr).

Inductive exn :=
  | AttributeError (name : string)
  | KeyMissing (e : key_error).

(** What a statement of the script works on: the session state, the
    note store and the page rendered so far. *)
Record world (DB : Type) := World {
  session : SessionState;
  store : DB;
  page : list element
}.
Arguments World {DB} _ _ _.
Arguments session {DB} _.
Arguments store {DB} _.
Arguments page {DB} _.

(** How a statement ends: it falls through to the next one, it calls
    [st.rerun()], which abandons the rest of the run, or it raises. *)
Inductive outcome (DB A : Type) :=
  | Next (a : A) (w : world DB)
  | Rerun (w : world DB)
  | Raise (e : exn) (w : world DB).
Arguments Next {DB A} _ _.
Arguments Rerun {DB A} _.
Arguments Raise {DB A} _ _.

Definition script (DB A : Type) : Type := world DB → outcome DB A.

#[export] Instance script_ret {DB} : MRet (script DB) :=
  λ A a w, Next a w.

#[export] Instance script_bind {DB} : MBind (script DB) :=
  λ A B k m w,
    match m w with
    | Next a w' => k a w'
    | Rerun w' => Rerun w'
    | Raise e w' => Raise e w'
    end.

(** The world a statement leaves behind, however it ends. *)
Definition final {DB A} (o : outcome DB A) : world DB :=
  match o with Next _ w | Rerun w | Raise _ w => w end.

Section Script.
Context {DB : Type} `{!Qdrant.Client DB}.

Definition session_state : script DB SessionState :=
  λ w, Next (session w) w.

Definition update (f : SessionState → SessionState) : script DB unit :=
  λ w, Next () (World (f (session w)) (store w) (page w)).

(** Reading an attribute of the session state that was never set raises
    [AttributeError]. *)
Definition getattr {A} (name : string) (field : SessionState → option A)
    : script DB A :=
  λ w, match field (session w) with
       | Some v => Next v w
       | None => Raise (AttributeError name) w
       end.

Definition emit (e : element) : script DB unit :=
  λ w, Next () (World (session w) (store w) (page w ++ [e])).

(** [st.rerun()] *)
Definition st_rerun {A} : script DB A := λ w, Rerun w.

(** [st.button(...)]: shows the button and is true in the run that the
    click on it started. *)
Definition st_button (clicked : option button) (b : button) : script DB bool :=
  emit (Button b);; mret (bool_decide (clicked = Some b)).

(** [st.text_area(..., key="feedback_textarea")]: the widget keeps its
    content in the session entry of its key, which it registers with
    the empty string when the key is not there; it shows and returns
    that content. *)
Definition st_text_area : script DB pystr :=
  ss ← session_state;
  let value := default [] (feedback_textarea ss) in
  update (set_feedback_textarea value);;
  emit (TextArea value);; mret value.

(** [client = get_qdrant_client()] *)
Definition client_connect : script DB unit :=
  λ w, match Qdrant.connect (store w) with
       | inl e => Raise (KeyMissing e) w
       | inr db => Next () (World (session w) db (page w))
       end.

Definition client_count : script DB Z :=
  λ w, Next (Qdrant.count (store w)) w.

Definition client_upsert (points : list Qdrant.PointStruct) : script DB unit :=
  λ w, Next () (World (session w) (Qdrant.upsert points (store w)) (page w)).

(** [add_note_to_db()], app.py 41-52. *)
Definition add_note_to_db : script DB unit :=
  ss ← session_state;
  let feedback_comment := strip (default [] (feedback_textarea ss)) in
  if negb (truthy feedback_comment) then mret ()
  else
    client_connect;;
    count ← client_count;
    let point := {| Qdrant.id := count + 1;
                    Qdrant.vector := [float_zero];
                    Qdrant.payload := {[ "text"%string := feedback_comment ]} |} in
    client_upsert [point].

(** app.py 112-113: the entry [feedback_choice] gets its default. *)
Definition feedback_choice_default : script DB unit :=
  ss ← session_state;
  if decide (feedback_choice ss = None)
  then update (set_feedback_choice None)
  else mret ().

(** app.py 140-146: the handler of the button [submit_feedback]. *)
Definition on_submit_feedback (feedback_comment : pystr) : script DB unit :=
  if truthy (strip feedback_comment) then
    add_note_to_db;;
    update (set_feedback_comment_submitted true);;
    st_rerun
  else
    emit (Warning "Proszę wpisać uwagi przed wysłaniem.").

(** app.py 115-148: the two choice buttons, or the answer to the choice
    made, with the comment box while no comment was sent. *)
Definition choice_section (clicked : option button) : script DB unit :=
  choice ← getattr "feedback_choice" feedback_choice;
  match choice with
  | None =>
      b ← st_button clicked btn_pasuje;
      (if b : bool then update (set_feedback_choice (Some pasuje));; st_rerun
       else mret ());;
      b ← st_button clicked btn_nie_pasuje;
      (if b : bool then update (set_feedback_choice (Some nie_pasuje));; st_rerun
       else mret ())
  | Some c =>
      if decide (c = pasuje) then
        emit (Success "✅ Wybrałeś: Opis pasuje do mnie");;
        emit (Info "Dziękujemy za feedback. Cieszę się, że trafiliśmy w punkt! 😊")
      else
        emit (Success "❌ Wybrałeś: Opis nie pasuje do mnie");;
        ss ← session_state;
        if negb (default false (feedback_comment_submitted ss)) then
          emit (Info "Dziękujemy za feedback. Pomóż ulepszyć nasz algorytm poprzez dodanie komentarza!");;
          feedback_comment ← st_text_area;
          b ← st_button clicked submit_feedback;
          if b : bool then on_submit_feedback feedback_comment else mret ()
        else
          emit (Info "✅ Dzięki za dodatkowe uwagi! Twój feedback został zapisany.")
  end.

(** app.py 150-156: the button that takes the choice back. *)
Definition change_choice_section (clicked : option button) : script DB unit :=
  choice ← getattr "feedback_choice" feedback_choice;
  if decide (choice ≠ None) then
    b ← st_button clicked btn_zmien_wybor;
    if b : bool then
      update (set_feedback_choice None);;
      update (set_feedback_comment_submitted false);;
      ss ← session_state;
      (if decide (is_Some (feedback_textarea ss))
       then update del_feedback_textarea
       else mret ());;
      st_rerun
    else mret ()
  else mret ().

(** app.py 112-156, the feedback part of the page. *)
Definition feedback_section (clicked : option button) : script DB unit :=
  feedback_choice_default;;
  choice_section clicked;;
  change_choice_section clicked.

(** One run of app.py as far as the session state and the note store
    are concerned: line 103 and the feedback part.  The headers, the
    metric and the charts read the predicted cluster only. *)
Definition app (predicted_cluster_id : pystr) (clicked : option button)
    : script DB unit :=
  update (reset_feedback_on_cluster_change predicted_cluster_id);;
  feedback_section clicked.

(** A run on an empty page. *)
Definition run {A} (m : script DB A) (ss : SessionState) (db : DB)
    : outcome DB A :=
  m (World ss db []).

(** The four pages the feedback part can show, up to the warning and
    the button "Zmień wybór". *)
Definition page_unanswered : list element :=
  [Button btn_pasuje; Button btn_nie_pasuje].

Definition page_agreed : list element :=
  [Success "✅ Wybrałeś: Opis pasuje do mnie";
   Info "Dziękujemy za feedback. Cieszę się, że trafiliśmy w punkt! 😊"].

Definition page_comment_box (text : pystr) : list element :=
  [Success "❌ Wybrałeś: Opis nie pasuje do mnie";
   Info "Dziękujemy za feedback. Pomóż ulepszyć nasz algorytm poprzez dodanie komentarza!";
   TextArea text;
   Button submit_feedback].

Definition page_thanks : list element :=
  [Success "❌ Wybrałeś: Opis nie pasuje do mnie";
   Info "✅ Dzięki za dodatkowe uwagi! Twój feedback został zapisany."].

Definition validation_warning : element :=
  Warning "Proszę wpisać uwagi przed wysłaniem.".

(** The point [add_note_to_db] builds for the comment [text] when the
    collection holds [count] points. *)
Definition note_point (count : Z) (text : pystr) : Qdrant.PointStruct :=
  {| Qdrant.id := count + 1;
     Qdrant.vector := [float_zero];
     Qdrant.payload := {[ "text"%string := strip text ]} |}.

(** ** The session as a transition system *)

Definition is_text_area (e : element) : bool :=
  match e with TextArea _ => true | _ => false end.

Definition is_warning (e : element) : bool :=
  match e with Warning _ => true | _ => false end.

(** The comment box is on the page the user looks at: a run without a
    click renders it. *)
Definition comment_box_shown (ss : SessionState) (db : DB) : bool :=
  existsb is_text_area (page (final (run (feedback_section None) ss db))).

(** What happens to a session.  [Assign] is line 103 with the cluster
    predicted for the current inputs; [Render] is the feedback part of a
    run, started by a click on the given button or, with [None], by
    anything else; [Edit] is the user typing into the comment box, which
    the widget stores under its key; [Forget] is the framework dropping
    the content of the comment box while the box is not on the page. *)
Inductive event :=
  | Assign (new_cluster_id : pystr)
  | Render (clicked : option button)
  | Edit (text : pystr)
  | Forget.

Definition handle (ev : event) (st : SessionState * DB) : SessionState * DB :=
  match ev with
  | Assign c => (reset_feedback_on_cluster_change c st.1, st.2)
  | Render clicked =>
      let w := final (run (feedback_section clicked) st.1 st.2) in
      (session w, store w)
  | Edit text =>
      if comment_box_shown st.1 st.2
      then (set_feedback_textarea text st.1, st.2)
      else st
  | Forget =>
      if comment_box_shown st.1 st.2
      then st
      else (del_feedback_textarea st.1, st.2)
  end.

Definition play (evs : list event) (st : SessionState * DB) : SessionState * DB :=
  foldl (λ st ev, handle ev st) st evs.

(** The states of a session that started empty, whatever the note store
    held at that time. *)
Inductive reachable : SessionState → DB → Prop :=
  | reachable_empty db : reachable empty_session db
  | reachable_handle ss db ev :
      reachable ss db →
      reachable (handle ev (ss, db)).1 (handle ev (ss, db)).2.

(** ** The session state as the specification reads it *)

(** The choice made, if any: a missing key and Python's [None] both mean
    that no choice was made. *)
Definition choice_made (ss : SessionState) : option pystr :=
  default None (feedback_choice ss).

(** [st.session_state.get('feedback_comment_submitted', False)] *)
Definition comment_submitted (ss : SessionState) : bool :=
  default false (feedback_comment_submitted ss).

(** [st.session_state.get("feedback_textarea", "")] *)
Definition comment_text (ss : SessionState) : pystr :=
  default [] (feedback_textarea ss).

(** [feedback_choice] is one of the three values of the data model. *)
Definition valid_choice (ss : SessionState) : Prop :=
  choice_made ss = None ∨ choice_made ss = Some pasuje ∨
  choice_made ss = Some nie_pasuje.

(** No field of the session state differs, a missing [feedback_choice]
    counting as [None]. *)
Definition same_session (ss ss' : SessionState) : Prop :=
  current_cluster_id ss' = current_cluster_id ss ∧
  choice_made ss' = choice_made ss ∧
  feedback_comment_submitted ss' = feedback_comment_submitted ss ∧
  feedback_textarea ss' = feedback_textarea ss.

(** The session after [st.text_area] has registered its key. *)
Definition register_text_area (ss : SessionState) : SessionState :=
  set_feedback_textarea (comment_text ss) ss.

(** The comment box, when it is on the page, has its key in the session
    state: so it is on every page that a run has rendered in full. *)
Definition box_registered (ss : SessionState) (db : DB) : Prop :=
  comment_box_shown ss db = true → is_Some (feedback_textarea ss).

(** What a run leaves when the framework is done with it: after a run
    that fell through, the content of the comment box is dropped unless
    the run rendered the box; a run that [st.rerun()] or an exception
    ended hands its session state on as it is. *)
Definition script_finished (o : outcome DB unit) : SessionState * DB :=
  match o with
  | Next _ w =>
      (if existsb is_text_area (page w) then session w
       else del_feedback_textarea (session w),
       store w)
  | Rerun w | Raise _ w => (session w, store w)
  end.

(** What every reachable session state satisfies: the choice is one of
    the three values, and a submitted comment or a stored comment text
    goes with the choice [nie_pasuje]. *)
Definition feedback_invariant (ss : SessionState) : Prop :=
  valid_choice ss ∧
  (comment_submitted ss = true → choice_made ss = Some nie_pasuje) ∧
  (is_Some (feedback_textarea ss) → choice_made ss = Some nie_pasuje).

End Script.

Arguments pasuje : simpl never.
Arguments nie_pasuje : simpl never.
Arguments strip : simpl never.

(** A session used in the examples: cluster "A" is assigned, the user
    disagrees and types a comment ... *)
Definition disagree_and_type : list event :=
  [ Assign (lit "A"); Render None;
    Render (Some btn_nie_pasuje); Render None;
    Edit (lit " too vague ") ].

(** ... and sends it. *)
Definition disagree_and_comment : list event :=
  disagree_and_type ++ [ Render (Some submit_feedback) ].

(** A note store that holds one note of another session. *)
Definition one_note : list Qdrant.PointStruct :=
  [ note_point 0 (lit "too long") ].

(** The session and the note store before and after the comment is
    sent, from an empty session. *)
Definition before_submission : SessionState * list Qdrant.PointStruct :=
  play disagree_and_type (empty_session, one_note).

Definition after_submission : SessionState * list Qdrant.PointStruct :=
  play disagree_and_comment (empty_session, one_note).

(** The session before the comment is sent, with a comment box that
    holds white space only. *)
Definition blank_comment : SessionState :=
  set_feedback_textarea (lit "   ") before_submission.1.

Definition is_button (b : button) (e : element) : bool :=
  match e with
  | Button b' => if button_eq_dec b' b then true else false
  | _ => false
  end.

(** The choice a choice button stands for (app.py 118-119, 122-123). *)
Definition choice_of_button (b : button) : option pystr :=
  match b with
  | btn_pasuje => Some pasuje
  | btn_nie_pasuje => Some nie_pasuje
  | _ => None
  end.

(** The ids of the notes are 1, 2, ... in the order of the store. *)
Definition sequential (db : list Qdrant.PointStruct) : Prop :=
  Qdrant.id <$> db = seqZ 1 (Z.of_nat (length db)).

(** ** Secrets and the Qdrant client *)

Definition QDRANT_COLLECTION_NAME : string := "user_feedback".
Definition VECTOR_SIZE : Z := 1.

(** app.py 20-24: the values of the file [.env], with the two secrets of
    the deployment put over them when they are set.  [V] is the type of
    the values. *)
Definition load_env {V} (dotenv secrets : gmap string V) : gmap string V :=
  let env := dotenv in
  let env :=
    match secrets !! "QDRANT_URL"%string with
    | Some v => <["QDRANT_URL"%string := v]> env
    | None => env
    end in
  let env :=
    match secrets !! "QDRANT_API_KEY"%string with
    | Some v => <["QDRANT_API_KEY"%string := v]> env
    | None => env
    end in
  env.

Module Service.

(** [qdrant_client.models.Distance] *)
Inductive Distance := COSINE | EUCLID | DOT | MANHATTAN.

(** [vectors_config={"size": ..., "distance": ...}] *)
Record VectorParams := {
  size : Z;
  distance : Distance
}.

(** A collection of the service: its configuration and its points. *)
Record Collection := {
  vectors_config : VectorParams;
  points : list Qdrant.PointStruct
}.

(** [QdrantClient(url=..., api_key=...)] *)
Record QdrantClient (V : Type) := {
  url : V;
  api_key : V
}.
Arguments url {V} _.
Arguments api_key {V} _.

(** The names in [client.get_collections().collections]. *)
Definition get_collections (svc : gmap string Collection) : list string :=
  (map_to_list svc).*1.

(** [client.create_collection(collection_name=..., vectors_config=...)]:
    a new collection without points. *)
Definition create_collection (collection_name : string)
    (config : VectorParams) (svc : gmap string Collection)
    : gmap string Collection :=
  <[collection_name := {| vectors_config := config; points := [] |}]> svc.

End Service.

(** [get_qdrant_client()], app.py 27-39, on the environment [env] and
    the collections [svc] of the service: the client and the collections
    afterwards, or the [KeyError] of a missing entry of [env]. *)
Definition get_qdrant_client {V} (env : gmap string V)
    (svc : gmap string Service.Collection)
    : key_error + (Service.QdrantClient V * gmap string Service.Collection) :=
  match env !! "QDRANT_URL"%string with
  | None => inl (KeyError "QDRANT_URL")
  | Some url =>
      match env !! "QDRANT_API_KEY"%string with
      | None => inl (KeyError "QDRANT_API_KEY")
      | Some api_key =>
          let client := {| Service.url := url; Service.api_key := api_key |} in
          let existing := Service.get_collections svc in
          if decide (QDRANT_COLLECTION_NAME ∉ existing) then
            inr (client,
                 Service.create_collection QDRANT_COLLECTION_NAME
                   {| Service.size := VECTOR_SIZE;
                      Service.distance := Service.COSINE |}
                   svc)
          else inr (client, svc)
      end
  end.

(** An environment and two services for the examples. *)
Definition example_env : gmap string string :=
  {[ "QDRANT_URL"%string := "https://qdrant.example"%string;
     "QDRANT_API_KEY"%string := "from-dotenv"%string ]}.

Definition example_secrets : gmap string string :=
  {[ "QDRANT_URL"%string := "https://secret.example"%string;
     "QDRANT_API_KEY"%string := "from-secrets"%string;
     "OTHER"%string := "ignored"%string ]}.

Definition service_with_feedback : gmap string Service.Collection :=
  {[ QDRANT_COLLECTION_NAME :=
       {| Service.vectors_config :=
            {| Service.size := VECTOR_SIZE; Service.distance := Service.COSINE |};
          Service.points := one_note |} ]}.

Definition service_without_feedback : gmap string Service.Collection :=
  {[ "other"%string :=
       {| Service.vectors_config :=
            {| Service.size := 3; Service.distance := Service.DOT |};
          Service.points := [] |} ]}.

(** The service of a deployment: the environment that lines 20-24 load
    and the collections.  The client is the one of [get_qdrant_client];
    [count] and [upsert] are those of the collection [user_feedback]. *)
Record Deployment := {
  deployed_env : gmap string string;
  collections : gmap string Service.Collection
}.

Definition feedback_points (d : Deployment) : list Qdrant.PointStruct :=
  match collections d !! QDRANT_COLLECTION_NAME with
  | Some coll => Service.points coll
  | None => []
  end.

#[export] Instance deployment : Qdrant.Client Deployment := {|
  Qdrant.connect := λ d,
    match get_qdrant_client (deployed_env d) (collections d) with
    | inl e => inl e
    | inr (_, svc) => inr {| deployed_env := deployed_env d; collections := svc |}
    end;
  Qdrant.count := λ d, Z.of_nat (length (feedback_points d));
  Qdrant.upsert := λ points d,
    {| deployed_env := deployed_env d;
       collections :=
         alter (λ coll, {| Service.vectors_config := Service.vectors_config coll;
                           Service.points := Service.points coll ++ points |})
               QDRANT_COLLECTION_NAME (collections d) |}
|}.


(** Unfolds a run of the script into the tests it makes. *)
Ltac run_script :=
  unfold run, app, feedback_section, feedback_choice_default, choice_section,
    change_choice_section, on_submit_feedback, add_note_to_db, st_text_area,
    st_button, st_rerun, emit, update, getattr, session_state,
    client_connect, client_count, client_upsert;
  unfold mbind, mret, script_bind, script_ret; cbn.

(** Settles the tests on the clicked button and on the choice. *)
Ltac settle :=
  repeat (first [case_bool_decide | case_decide]; simplify_eq; cbn);
  rewrite <- ?app_assoc; try reflexivity.

(** Splits a session state into its four entries. *)
Ltac split_session ss :=
  let cid := fresh "cid" in
  let ch := fresh "ch" in
  let sub := fresh "sub" in
  let txt := fresh "txt" in
  destruct ss as [cid ch sub txt];
  unfold choice_made, comment_submitted, comment_text in *; cbn in *.

(** ** White space *)

Lemma lstrip_split (s : pystr) :
  ∃ l, s = l ++ lstrip s ∧ forallb is_space l = true.
Proof.
  induction s as [|c s [l [Hs Hl]]]; cbn.
  - by exists [].
  - destruct (is_space c) eqn:Hc.
    + exists (c :: l). cbn. rewrite Hc, Hl. by rewrite Hs at 1.
    + by exists [].
Qed.

Lemma lstrip_head (s : pystr) (c : N) :
  head (lstrip s) = Some c → is_space c = false.
Proof.
  induction s as [|d s IH]; cbn; [done|].
  destruct (is_space d) eqn:Hd; [done|].
  cbn. by intros [= <-].
Qed.

Lemma forallb_reverse (f : N → bool) (l : pystr) :
  forallb f (reverse l) = forallb f l.
Proof.
  induction l as [|c l IH]; [done|].
  rewrite reverse_cons, forallb_app, IH. cbn.
  destruct (f c), (forallb f l); done.
Qed.

Lemma rstrip_split (s : pystr) :
  ∃ r, s = rstrip s ++ r ∧ forallb is_space r = true.
Proof.
  destruct (lstrip_split (reverse s)) as [l [Hs Hl]].
  exists (reverse l). split.
  - unfold rstrip. rewrite <- reverse_app, <- Hs. by rewrite reverse_involutive.
  - by rewrite forallb_reverse.
Qed.

Lemma rstrip_last (s : pystr) (c : N) :
  last (rstrip s) = Some c → is_space c = false.
Proof.
  unfold rstrip. rewrite last_reverse. apply lstrip_head.
Qed.

Lemma rstrip_head (s : pystr) (c : N) :
  head (rstrip s) = Some c → head s = Some c.
Proof.
  destruct (rstrip_split s) as [r [Hs _]].
  intros Hc. rewrite Hs. by destruct (rstrip s).
Qed.

Lemma strip_trimmed (s : pystr) : trimmed_of s (strip s).
Proof.
  destruct (lstrip_split s) as [l [Hs Hl]].
  destruct (rstrip_split (lstrip s)) as [r [Hr Hr']].
  exists l, r. unfold strip. repeat split; try done.
  - by rewrite <- Hr.
  - intros c Hc. by apply (lstrip_head s), rstrip_head.
  - apply rstrip_last.
Qed.

Lemma strip_blank (s : pystr) :
  strip s = [] ↔ forallb is_space s = true.
Proof.
  split.
  - intros E. destruct (strip_trimmed s) as (l & r & Hs & Hl & Hr & _).
    rewrite Hs, E, !forallb_app, Hl, Hr. done.
  - intros Hs. unfold strip.
    assert (lstrip s = []) as ->; [|done].
    induction s as [|c s IH]; [done|]. cbn in *.
    apply andb_prop in Hs as [-> Hs]. auto.
Qed.

(** ** The feedback part, block by block *)

Section Blocks.
Context {DB : Type} `{!Qdrant.Client DB}.

Lemma nie_pasuje_ne_pasuje : nie_pasuje ≠ pasuje.
Proof. discriminate. Qed.

Lemma choice_made_Some ss c :
  choice_made ss = Some c → feedback_choice ss = Some (Some c).
Proof. split_session ss. by destruct ch as [[?|]|]; intros; simplify_eq/=. Qed.

Lemma bind_run {A B} (m : script DB A) (k : A → script DB B) (w : world DB) :
  (m ≫= k) w =
  match m w with
  | Next a w' => k a w'
  | Rerun w' => Rerun w'
  | Raise e w' => Raise e w'
  end.
Proof. reflexivity. Qed.

(** Lines 112-113 leave a session with a [feedback_choice] as it is and
    give one without the value [None]. *)
Lemma feedback_choice_default_run ss (db : DB) p :
  feedback_choice_default (World ss db p) =
  Next () (World (if feedback_choice ss is Some _ then ss
                  else set_feedback_choice None ss)
                 db p).
Proof.
  unfold feedback_choice_default. rewrite bind_run. cbn.
  destruct (feedback_choice ss) eqn:E; by case_decide.
Qed.

(** No choice made: the two choice buttons. *)
Lemma choice_section_unanswered clicked ss (db : DB) p :
  feedback_choice ss = Some None →
  choice_section clicked (World ss db p) =
    if decide (clicked = Some btn_pasuje) then
      Rerun (World (set_feedback_choice (Some pasuje) ss) db
                   (p ++ [Button btn_pasuje]))
    else if decide (clicked = Some btn_nie_pasuje) then
      Rerun (World (set_feedback_choice (Some nie_pasuje) ss) db
                   (p ++ page_unanswered))
    else
      Next () (World ss db (p ++ page_unanswered)).
Proof.
  intros Hc. unfold choice_section, getattr. rewrite bind_run. cbn.
  rewrite Hc. unfold page_unanswered.
  destruct clicked as [[]|]; run_script; settle.
Qed.

(** The user agreed. *)
Lemma choice_section_agreed clicked ss (db : DB) p :
  feedback_choice ss = Some (Some pasuje) →
  choice_section clicked (World ss db p) =
    Next () (World ss db (p ++ page_agreed)).
Proof.
  intros Hc. unfold choice_section, getattr. rewrite bind_run. cbn.
  rewrite Hc, decide_True by done.
  run_script. settle.
Qed.

(** The user disagreed and has not sent a comment: the comment box. *)
Lemma choice_section_comment_box clicked ss (db : DB) p c :
  feedback_choice ss = Some (Some c) → c ≠ pasuje →
  comment_submitted ss = false →
  choice_section clicked (World ss db p) =
    let box := p ++ page_comment_box (comment_text ss) in
    let ss' := register_text_area ss in
    if decide (clicked = Some submit_feedback) then
      if truthy (strip (comment_text ss)) then
        match Qdrant.connect db with
        | inr db' =>
            Rerun (World (set_feedback_comment_submitted true ss')
                         (Qdrant.upsert
                            [note_point (Qdrant.count db') (comment_text ss)]
                            db')
                         box)
        | inl e => Raise (KeyMissing e) (World ss' db box)
        end
      else
        Next () (World ss' db (box ++ [validation_warning]))
    else
      Next () (World ss' db box).
Proof.
  intros Hc Hne Hs. unfold choice_section, getattr. rewrite bind_run. cbn.
  rewrite Hc, decide_False by done.
  unfold register_text_area, comment_submitted, comment_text in *.
  destruct (feedback_comment_submitted ss) as [[]|] eqn:Hsub; [done|..];
    destruct clicked as [[]|]; run_script; rewrite Hsub; cbn; settle;
    destruct (truthy (strip _)) eqn:E; cbn; rewrite ?E; cbn; settle;
    destruct (Qdrant.connect db); cbn; settle.
Qed.

(** The user disagreed and sent a comment. *)
Lemma choice_section_thanks clicked ss (db : DB) p c :
  feedback_choice ss = Some (Some c) → c ≠ pasuje →
  comment_submitted ss = true →
  choice_section clicked (World ss db p) =
    Next () (World ss db (p ++ page_thanks)).
Proof.
  intros Hc Hne Hs. unfold choice_section, getattr. rewrite bind_run. cbn.
  rewrite Hc, decide_False by done.
  unfold comment_submitted in Hs.
  destruct (feedback_comment_submitted ss) as [[]|] eqn:Hsub; try done.
  run_script. rewrite Hsub. cbn. settle.
Qed.

(** Lines 150-156 without a choice: nothing is shown. *)
Lemma change_choice_section_unanswered clicked ss (db : DB) p :
  feedback_choice ss = Some None →
  change_choice_section clicked (World ss db p) = Next () (World ss db p).
Proof.
  intros Hc. unfold change_choice_section, getattr. rewrite bind_run. cbn.
  rewrite Hc. by rewrite decide_False by (by intros []).
Qed.

(** Lines 150-156 with a choice: the button, and the reset on a click. *)
Lemma change_choice_section_answered clicked ss (db : DB) p c :
  feedback_choice ss = Some (Some c) →
  change_choice_section clicked (World ss db p) =
    if decide (clicked = Some btn_zmien_wybor) then
      Rerun (World (feedback_cleared ss) db (p ++ [Button btn_zmien_wybor]))
    else
      Next () (World ss db (p ++ [Button btn_zmien_wybor])).
Proof.
  intros Hc. unfold change_choice_section, getattr. rewrite bind_run. cbn.
  rewrite Hc, decide_True by done.
  destruct clicked as [[]|]; run_script; settle.
  match goal with H : ¬ is_Some _ |- _ => apply eq_None_not_Some in H as Ht end.
  unfold feedback_cleared, set_feedback_comment_submitted, set_feedback_choice.
  cbn. by rewrite Ht.
Qed.

(** *** The four pages *)

Lemma run_unanswered clicked ss (db : DB) :
  choice_made ss = None →
  run (feedback_section clicked) ss db =
    if decide (clicked = Some btn_pasuje) then
      Rerun (World (set_feedback_choice (Some pasuje) ss) db
                   [Button btn_pasuje])
    else if decide (clicked = Some btn_nie_pasuje) then
      Rerun (World (set_feedback_choice (Some nie_pasuje) ss) db
                   page_unanswered)
    else
      Next () (World (set_feedback_choice None ss) db page_unanswered).
Proof.
  intros Hc. unfold run, feedback_section.
  rewrite bind_run, feedback_choice_default_run.
  set (ss' := match feedback_choice ss with Some _ => ss | None => _ end).
  assert (ss' = set_feedback_choice None ss ∧ feedback_choice ss' = Some None)
    as [Hss' Hc'].
  { subst ss'. split_session ss. by destruct ch as [[?|]|]. }
  rewrite bind_run, (choice_section_unanswered _ _ _ _ Hc').
  clearbody ss'. repeat case_decide; cbv beta iota.
  - by rewrite Hss'.
  - by rewrite Hss'.
  - by rewrite (change_choice_section_unanswered _ _ _ _ Hc'), Hss'.
Qed.

Lemma run_agreed clicked ss (db : DB) :
  choice_made ss = Some pasuje →
  run (feedback_section clicked) ss db =
    if decide (clicked = Some btn_zmien_wybor) then
      Rerun (World (feedback_cleared ss) db
                   (page_agreed ++ [Button btn_zmien_wybor]))
    else
      Next () (World ss db (page_agreed ++ [Button btn_zmien_wybor])).
Proof.
  intros Hc%choice_made_Some. unfold run, feedback_section.
  rewrite bind_run, feedback_choice_default_run, Hc.
  rewrite bind_run, (choice_section_agreed _ _ _ _ Hc).
  apply (change_choice_section_answered _ _ _ _ _ Hc).
Qed.

Lemma run_comment_box clicked ss (db : DB) c :
  choice_made ss = Some c → c ≠ pasuje → comment_submitted ss = false →
  run (feedback_section clicked) ss db =
    let box := page_comment_box (comment_text ss) in
    let ss' := register_text_area ss in
    if decide (clicked = Some submit_feedback) then
      if truthy (strip (comment_text ss)) then
        match Qdrant.connect db with
        | inr db' =>
            Rerun (World (set_feedback_comment_submitted true ss')
                         (Qdrant.upsert
                            [note_point (Qdrant.count db') (comment_text ss)]
                            db')
                         box)
        | inl e => Raise (KeyMissing e) (World ss' db box)
        end
      else
        Next () (World ss' db
                       (box ++ [validation_warning; Button btn_zmien_wybor]))
    else if decide (clicked = Some btn_zmien_wybor) then
      Rerun (World (feedback_cleared ss) db (box ++ [Button btn_zmien_wybor]))
    else
      Next () (World ss' db (box ++ [Button btn_zmien_wybor])).
Proof.
  intros Hc%choice_made_Some Hne Hs. unfold run, feedback_section.
  rewrite bind_run, feedback_choice_default_run, Hc.
  rewrite bind_run, (choice_section_comment_box _ _ _ _ _ Hc Hne Hs).
  cbv zeta. rewrite !app_nil_l.
  destruct (decide (clicked = Some submit_feedback)) as [->|Hclick].
  - destruct (truthy _); [by destruct (Qdrant.connect db)|].
    rewrite (change_choice_section_answered _ (register_text_area ss) _ _ _ Hc).
    rewrite decide_False by done. by rewrite <- app_assoc.
  - apply (change_choice_section_answered _ (register_text_area ss) _ _ _ Hc).
Qed.

(** Registering the key of the comment box changes nothing when the key
    is there, and never changes the text that is read. *)
Lemma register_present ss :
  is_Some (feedback_textarea ss) → register_text_area ss = ss.
Proof.
  intros [t Ht]. unfold register_text_area, comment_text.
  destruct ss as [cid ch sub txt]. cbn in *. by subst.
Qed.

Lemma register_text ss :
  strip (comment_text ss) ≠ [] → register_text_area ss = ss.
Proof.
  intros Ht. apply register_present. unfold comment_text in Ht.
  destruct (feedback_textarea ss); [done|]. by destruct Ht.
Qed.

Lemma run_thanks clicked ss (db : DB) c :
  choice_made ss = Some c → c ≠ pasuje → comment_submitted ss = true →
  run (feedback_section clicked) ss db =
    if decide (clicked = Some btn_zmien_wybor) then
      Rerun (World (feedback_cleared ss) db
                   (page_thanks ++ [Button btn_zmien_wybor]))
    else
      Next () (World ss db (page_thanks ++ [Button btn_zmien_wybor])).
Proof.
  intros Hc%choice_made_Some Hne Hs. unfold run, feedback_section.
  rewrite bind_run, feedback_choice_default_run, Hc.
  rewrite bind_run, (choice_section_thanks _ _ _ _ _ Hc Hne Hs).
  apply (change_choice_section_answered _ _ _ _ _ Hc).
Qed.

End Blocks.

(** ** The cluster change *)

Section ClusterChange.

(** C1. In a session that has a current cluster and a feedback choice,
    the assignment of a different cluster makes that cluster the
    current one, sets the choice back to [None] and the submitted flag
    to [False], and removes the comment text. *)
Theorem cluster_change_resets_feedback (ss : SessionState) (cur c' : pystr) :
  current_cluster_id ss = Some cur →
  choice_made ss ≠ None →
  c' ≠ cur →
  reset_feedback_on_cluster_change c' ss =
    {| current_cluster_id := Some c';
       feedback_choice := Some None;
       feedback_comment_submitted := Some false;
       feedback_textarea := None |} ∧
  choice_made (reset_feedback_on_cluster_change c' ss) = None ∧
  comment_submitted (reset_feedback_on_cluster_change c' ss) = false.
Proof.
  intros Hcur _ Hne.
  enough (reset_feedback_on_cluster_change c' ss =
            set_current_cluster_id c' (feedback_cleared ss)) as ->
    by done.
  unfold reset_feedback_on_cluster_change.
  rewrite Hcur. rewrite decide_True by congruence.
  cbn. case_decide as Ht; [reflexivity|].
  apply eq_None_not_Some in Ht. cbn in Ht.
  unfold set_feedback_comment_submitted, set_current_cluster_id.
  cbn. by rewrite Ht.
Qed.

Lemma cluster_change_resets_feedback_witness :
  (current_cluster_id after_submission.1 = Some (lit "A") ∧
   choice_made after_submission.1 ≠ None ∧
   lit "B" ≠ lit "A") ∧
  reset_feedback_on_cluster_change (lit "B") after_submission.1 =
    {| current_cluster_id := Some (lit "B");
       feedback_choice := Some None;
       feedback_comment_submitted := Some false;
       feedback_textarea := None |} ∧
  choice_made (reset_feedback_on_cluster_change (lit "B") after_submission.1)
    = None ∧
  comment_submitted
    (reset_feedback_on_cluster_change (lit "B") after_submission.1) = false.
Proof.
  assert (current_cluster_id after_submission.1 = Some (lit "A")) as H1
    by (vm_compute; reflexivity).
  assert (choice_made after_submission.1 ≠ None) as H2
    by (vm_compute; discriminate).
  assert (lit "B" ≠ lit "A") as H3 by (vm_compute; discriminate).
  split; [by repeat split|].
  exact (cluster_change_resets_feedback _ _ _ H1 H2 H3).
Defined.

(** C2. In a session without a current cluster, no choice and no
    submitted comment, the assignment of a cluster sets the current
    cluster and nothing else: the choice stays absent and the submitted
    flag false. *)
Theorem first_assignment_only_sets_cluster (ss : SessionState) (c : pystr) :
  current_cluster_id ss = None →
  choice_made ss = None →
  comment_submitted ss = false →
  reset_feedback_on_cluster_change c ss = set_current_cluster_id c ss ∧
  current_cluster_id (reset_feedback_on_cluster_change c ss) = Some c ∧
  choice_made (reset_feedback_on_cluster_change c ss) = None ∧
  comment_submitted (reset_feedback_on_cluster_change c ss) = false.
Proof.
  intros Hcur Hc Hs. unfold reset_feedback_on_cluster_change.
  rewrite Hcur. by repeat split.
Qed.

Lemma first_assignment_only_sets_cluster_witness :
  (current_cluster_id empty_session = None ∧
   choice_made empty_session = None ∧
   comment_submitted empty_session = false) ∧
  reset_feedback_on_cluster_change (lit "A") empty_session =
    set_current_cluster_id (lit "A") empty_session ∧
  current_cluster_id (reset_feedback_on_cluster_change (lit "A") empty_session)
    = Some (lit "A") ∧
  choice_made (reset_feedback_on_cluster_change (lit "A") empty_session)
    = None ∧
  comment_submitted (reset_feedback_on_cluster_change (lit "A") empty_session)
    = false.
Proof.
  split; [by repeat split|].
  apply (first_assignment_only_sets_cluster empty_session (lit "A"));
    reflexivity.
Defined.

(** C8. The assignment of the cluster that is already the current one
    changes nothing: the choice, the submitted flag and the comment text
    are as before. *)
Theorem same_cluster_preserves_feedback (ss : SessionState) (c : pystr) :
  current_cluster_id ss = Some c →
  reset_feedback_on_cluster_change c ss = ss ∧
  feedback_choice (reset_feedback_on_cluster_change c ss)
    = feedback_choice ss ∧
  feedback_comment_submitted (reset_feedback_on_cluster_change c ss)
    = feedback_comment_submitted ss ∧
  feedback_textarea (reset_feedback_on_cluster_change c ss)
    = feedback_textarea ss.
Proof.
  intros Hcur. unfold reset_feedback_on_cluster_change.
  rewrite Hcur. by rewrite decide_False by (by intros []).
Qed.

Lemma same_cluster_preserves_feedback_witness :
  current_cluster_id after_submission.1 = Some (lit "A") ∧
  reset_feedback_on_cluster_change (lit "A") after_submission.1
    = after_submission.1 ∧
  feedback_choice (reset_feedback_on_cluster_change (lit "A") after_submission.1)
    = feedback_choice after_submission.1 ∧
  feedback_comment_submitted
    (reset_feedback_on_cluster_change (lit "A") after_submission.1)
    = feedback_comment_submitted after_submission.1 ∧
  feedback_textarea (reset_feedback_on_cluster_change (lit "A") after_submission.1)
    = feedback_textarea after_submission.1.
Proof.
  assert (current_cluster_id after_submission.1 = Some (lit "A")) as H1
    by (vm_compute; reflexivity).
  split; [exact H1|].
  exact (same_cluster_preserves_feedback _ _ H1).
Defined.

End ClusterChange.

(** ** The invariant of a session *)

Section Invariant.
Context {DB : Type} `{!Qdrant.Client DB}.

(** A session shows one of the four pages. *)
Lemma choice_cases ss :
  choice_made ss = None ∨ choice_made ss = Some pasuje ∨
  ∃ c, choice_made ss = Some c ∧ c ≠ pasuje.
Proof.
  destruct (choice_made ss) as [c|]; [|by left].
  destruct (decide (c = pasuje)) as [->|Hne]; [by right; left|].
  right; right. by exists c.
Qed.

(** The comment box is shown exactly while the user disagrees and has
    not sent a comment. *)
Lemma comment_box_shown_iff ss (db : DB) :
  comment_box_shown ss db = true ↔
  ∃ c, choice_made ss = Some c ∧ c ≠ pasuje ∧ comment_submitted ss = false.
Proof.
  unfold comment_box_shown.
  destruct (choice_cases ss) as [Hc|[Hc|(c & Hc & Hne)]].
  - rewrite (run_unanswered _ _ _ Hc), !decide_False by done.
    split; [done|]. intros (c & Hc' & _). congruence.
  - rewrite (run_agreed _ _ _ Hc), decide_False by done.
    split; [done|]. intros (c & Hc' & Hne & _). congruence.
  - destruct (comment_submitted ss) eqn:Hs.
    + rewrite (run_thanks _ _ _ _ Hc Hne Hs), decide_False by done.
      split; [done|]. by intros (c' & _ & _ & ?).
    + rewrite (run_comment_box _ _ _ _ Hc Hne Hs). cbv zeta.
      rewrite !decide_False by done.
      split; [|done]. intros _. by exists c.
Qed.

(** A session without a choice, a submitted comment and a comment text
    satisfies the invariant. *)
Lemma invariant_unanswered ss :
  choice_made ss = None → comment_submitted ss = false →
  feedback_textarea ss = None →
  feedback_invariant ss.
Proof.
  intros Hc Hs Ht. unfold feedback_invariant, valid_choice.
  rewrite Hc, Hs, Ht. split; [by left|]. split; [done|]. by intros [? [=]].
Qed.

(** So does a session in which a choice is made and nothing else. *)
Lemma invariant_chosen ss c :
  c = pasuje ∨ c = nie_pasuje →
  comment_submitted ss = false → feedback_textarea ss = None →
  feedback_invariant (set_feedback_choice (Some c) ss).
Proof.
  intros Hc Hs Ht. unfold feedback_invariant, valid_choice.
  unfold choice_made, comment_submitted in *. cbn. rewrite Hs, Ht.
  split; [destruct Hc as [->| ->]; auto|].
  split; [done|]. by intros [? [=]].
Qed.

(** And so does every session in which the user disagrees. *)
Lemma invariant_disagreeing ss :
  choice_made ss = Some nie_pasuje → feedback_invariant ss.
Proof.
  intros Hc. unfold feedback_invariant, valid_choice. rewrite Hc. auto.
Qed.

Lemma assign_invariant c ss :
  feedback_invariant ss →
  feedback_invariant (reset_feedback_on_cluster_change c ss).
Proof.
  intros Hinv. unfold reset_feedback_on_cluster_change.
  destruct (current_cluster_id ss) as [cur|]; [|done].
  case_decide; [|done]. cbn.
  case_decide as Ht; apply invariant_unanswered; try done.
  by apply eq_None_not_Some in Ht.
Qed.

Lemma render_invariant clicked ss (db : DB) :
  feedback_invariant ss →
  feedback_invariant (session (final (run (feedback_section clicked) ss db))).
Proof.
  intros (Hvalid & Hsub & Htxt).
  assert (feedback_invariant (feedback_cleared ss)) as Hcl
    by (by apply invariant_unanswered).
  destruct (choice_cases ss) as [Hc|[Hc|(c & Hc & Hne)]].
  - rewrite (run_unanswered _ _ _ Hc).
    assert (comment_submitted ss = false) as Hs.
    { destruct (comment_submitted ss); [|done]. by rewrite Hsub in Hc. }
    assert (feedback_textarea ss = None) as Ht.
    { apply eq_None_not_Some. intros Hsome. by rewrite Htxt in Hc. }
    repeat case_decide; cbn.
    + apply invariant_chosen; auto.
    + apply invariant_chosen; auto.
    + by apply invariant_unanswered.
  - rewrite (run_agreed _ _ _ Hc). by case_decide.
  - assert (c = nie_pasuje) as ->.
    { destruct Hvalid as [H0|[H0|H0]]; rewrite Hc in H0; by simplify_eq. }
    destruct (comment_submitted ss) eqn:Hs.
    + rewrite (run_thanks _ _ _ _ Hc Hne Hs). by case_decide.
    + rewrite (run_comment_box _ _ _ _ Hc Hne Hs). cbv zeta.
      repeat case_decide; try done;
        try destruct (truthy _); try destruct (Qdrant.connect db);
        by apply invariant_disagreeing.
Qed.

Lemma handle_invariant ev ss (db : DB) :
  feedback_invariant ss → feedback_invariant (handle ev (ss, db)).1.
Proof.
  intros Hinv. destruct ev as [c|clicked|text|]; cbn.
  - by apply assign_invariant.
  - by apply render_invariant.
  - destruct (comment_box_shown ss db) eqn:E; [|done].
    apply comment_box_shown_iff in E as (c & Hc & Hne & Hs).
    destruct Hinv as (Hvalid & Hsub & Htxt).
    assert (c = nie_pasuje) as ->.
    { destruct Hvalid as [H0|[H0|H0]]; rewrite Hc in H0; by simplify_eq. }
    unfold feedback_invariant, valid_choice, choice_made, comment_submitted
      in *. cbn. by repeat split.
  - destruct (comment_box_shown ss db); [done|].
    destruct Hinv as (Hvalid & Hsub & Htxt).
    split; [done|]. split; [done|]. by intros [? [=]].
Qed.

Lemma reachable_play evs ss (db : DB) :
  reachable ss db →
  reachable (play evs (ss, db)).1 (play evs (ss, db)).2.
Proof.
  revert ss db. induction evs as [|ev evs IH]; intros ss db Hr; [done|].
  cbn. destruct (handle ev (ss, db)) as [ss' db'] eqn:E.
  apply IH. replace ss' with (handle ev (ss, db)).1 by (by rewrite E).
  replace db' with (handle ev (ss, db)).2 by (by rewrite E).
  by constructor.
Qed.

(** A run of the whole script is the assignment of line 103 followed by
    the feedback part, so the states it leaves are reachable. *)
Lemma app_handle c clicked ss (db : DB) :
  (session (final (run (app c clicked) ss db)),
   store (final (run (app c clicked) ss db))) =
  handle (Render clicked) (handle (Assign c) (ss, db)).
Proof. reflexivity. Qed.



End Invariant.

(** ** The feedback events *)

Section Feedback.
Context {DB : Type} `{!Qdrant.Client DB}.

(** A missing [feedback_choice] and the value [None] are the same
    session to the reader of the specification. *)
Lemma same_session_default ss :
  choice_made ss = None →
  same_session ss (set_feedback_choice None ss) ∧
  (feedback_choice ss ≠ None → set_feedback_choice None ss = ss).
Proof.
  intros Hc. split; [by repeat split|].
  split_session ss. by destruct ch as [[?|]|].
Qed.

(** A run without a click falls through and leaves the store alone; in
    the session it sets a missing [feedback_choice] to [None] and
    registers the key of the comment box when it shows the box. *)
Lemma render_without_click ss (db : DB) :
  ∃ w, run (feedback_section None) ss db = Next () w ∧
       store w = db ∧
       (box_registered ss db →
        same_session ss (session w) ∧
        (feedback_choice ss ≠ None → session w = ss)).
Proof.
  destruct (choice_cases ss) as [Hc|[Hc|(c & Hc & Hne)]].
  - rewrite (run_unanswered _ _ _ Hc), !decide_False by done.
    destruct (same_session_default _ Hc). by eexists.
  - rewrite (run_agreed _ _ _ Hc), decide_False by done. by eexists.
  - destruct (comment_submitted ss) eqn:Hs.
    + rewrite (run_thanks _ _ _ _ Hc Hne Hs), decide_False by done.
      by eexists.
    + rewrite (run_comment_box _ _ _ _ Hc Hne Hs). cbv zeta.
      rewrite !decide_False by done. eexists. split; [done|].
      split; [done|]. intros Hreg. cbn.
      rewrite register_present; [done|].
      apply Hreg, comment_box_shown_iff. by exists c.
Qed.

(** A run that fell through has rendered its page in full: the comment
    box is on it exactly when the session left shows it, and then its
    key is in the session state. *)
Lemma finished_run_page clicked ss (db : DB) w :
  run (feedback_section clicked) ss db = Next () w →
  existsb is_text_area (page w) = comment_box_shown (session w) (store w) ∧
  box_registered (session w) (store w).
Proof.
  unfold box_registered.
  destruct (choice_cases ss) as [Hc|[Hc|(c & Hc & Hne)]].
  - rewrite (run_unanswered _ _ _ Hc). repeat case_decide; intros [= <-].
    assert (comment_box_shown (set_feedback_choice None ss) db = false)
      as Hno.
    { apply not_true_is_false. by intros (? & ? & _)%comment_box_shown_iff. }
    cbn. by rewrite Hno.
  - rewrite (run_agreed _ _ _ Hc). case_decide; intros [= <-].
    assert (comment_box_shown ss db = false) as Hno.
    { apply not_true_is_false.
      intros (? & ? & ? & _)%comment_box_shown_iff. congruence. }
    cbn. by rewrite Hno.
  - destruct (comment_submitted ss) eqn:Hs.
    + rewrite (run_thanks _ _ _ _ Hc Hne Hs). case_decide; intros [= <-].
      assert (comment_box_shown ss db = false) as Hno.
      { apply not_true_is_false.
        intros (? & ? & ? & ?)%comment_box_shown_iff. congruence. }
      cbn. by rewrite Hno.
    + rewrite (run_comment_box _ _ _ _ Hc Hne Hs). cbv zeta.
      assert (comment_box_shown (register_text_area ss) db = true) as Hyes.
      { apply comment_box_shown_iff. by exists c. }
      repeat case_decide;
        try destruct (truthy _); try destruct (Qdrant.connect db);
        intros [= <-]; cbn; rewrite Hyes; by eauto.
Qed.

(** What the framework leaves of a run is a reachable state. *)
Lemma finished_run_reachable c clicked ss (db : DB) :
  reachable ss db →
  reachable (script_finished (run (app c clicked) ss db)).1
            (script_finished (run (app c clicked) ss db)).2.
Proof.
  intros Hr.
  pose proof (reachable_handle _ _ (Render clicked)
                (reachable_handle _ _ (Assign c) Hr)) as Hrun.
  cbn in Hrun.
  change (run (app c clicked) ss db) with
    (run (feedback_section clicked) (reset_feedback_on_cluster_change c ss) db).
  destruct (run (feedback_section clicked) _ db) as [[] w|w|e w] eqn:E;
    cbn in *; try done.
  destruct (finished_run_page _ _ _ _ E) as [-> _].
  pose proof (reachable_handle _ _ Forget Hrun) as Hforget. cbn in Hforget.
  by destruct (comment_box_shown (session w) (store w)).
Qed.

(** C3. In every reachable session state a comment is submitted only
    if the choice is [nie_pasuje] ("does not match"). *)
Theorem submitted_only_when_disagreeing (ss : SessionState) (db : DB) :
  reachable ss db →
  comment_submitted ss = true →
  choice_made ss = Some nie_pasuje.
Proof.
  intros Hr. enough (feedback_invariant ss) as (_ & Hsub & _) by done.
  induction Hr as [db|ss db ev _ IH].
  - by apply invariant_unanswered.
  - by apply handle_invariant.
Qed.



(** C10. The point a successful submission (one for which
    [get_qdrant_client] returns the client) upserts carries, under the
    key "text", the comment without the white space at its two ends, and
    the vector [0.0]. *)
Theorem persisted_text_is_trimmed (ss : SessionState) (db db' : DB) :
  choice_made ss = Some nie_pasuje →
  comment_submitted ss = false →
  strip (comment_text ss) ≠ [] →
  Qdrant.connect db = inr db' →
  ∃ point text,
    store (final (run (feedback_section (Some submit_feedback)) ss db))
      = Qdrant.upsert [point] db' ∧
    Qdrant.payload point = {[ "text"%string := text ]} ∧
    Qdrant.payload point !! "text"%string = Some text ∧
    text = strip (comment_text ss) ∧
    trimmed_of (comment_text ss) text ∧
    Qdrant.vector point = [float_zero].
Proof.
  intros Hc Hs Ht Hdb.
  exists (note_point (Qdrant.count db') (comment_text ss)),
         (strip (comment_text ss)).
  rewrite (run_comment_box _ _ _ _ Hc nie_pasuje_ne_pasuje Hs). cbv zeta.
  rewrite decide_True, Hdb by done.
  assert (truthy (strip (comment_text ss)) = true) as ->
    by (by destruct (strip (comment_text ss))).
  split; [reflexivity|]. split; [reflexivity|].
  split; [apply lookup_singleton_eq|]. split; [reflexivity|].
  split; [apply strip_trimmed|reflexivity].
Qed.

(** C7. With a choice made, a click on "Zmień wybór" sets the choice to
    [None] and the submitted flag to [False], removes the comment text,
    keeps the current cluster and leaves the store alone. *)
Theorem explicit_reset (ss : SessionState) (db : DB) :
  choice_made ss ≠ None →
  ∃ w, run (feedback_section (Some btn_zmien_wybor)) ss db = Rerun w ∧
       session w =
         {| current_cluster_id := current_cluster_id ss;
            feedback_choice := Some None;
            feedback_comment_submitted := Some false;
            feedback_textarea := None |} ∧
       store w = db.
Proof.
  intros Hsome.
  destruct (choice_cases ss) as [Hc|[Hc|(c & Hc & Hne)]]; [done|..].
  - rewrite (run_agreed _ _ _ Hc), decide_True by done. by eexists.
  - destruct (comment_submitted ss) eqn:Hs.
    + rewrite (run_thanks _ _ _ _ Hc Hne Hs), decide_True by done.
      by eexists.
    + rewrite (run_comment_box _ _ _ _ Hc Hne Hs). cbv zeta.
      rewrite decide_False, decide_True by done. by eexists.
Qed.

(** C6. While the choice is not [nie_pasuje], or once a comment was
    submitted, a click on the submit button is a run without a click:
    it falls through, the session state is as before and the store is
    not touched. *)
Theorem submission_guard (ss : SessionState) (db : DB) :
  valid_choice ss →
  choice_made ss ≠ Some nie_pasuje ∨ comment_submitted ss = true →
  ∃ w, run (feedback_section (Some submit_feedback)) ss db = Next () w ∧
       run (feedback_section None) ss db = Next () w ∧
       same_session ss (session w) ∧
       (feedback_choice ss ≠ None → session w = ss) ∧
       store w = db.
Proof.
  intros Hvalid Hguard.
  destruct (choice_cases ss) as [Hc|[Hc|(c & Hc & Hne)]].
  - rewrite !(run_unanswered _ _ _ Hc), !decide_False by done.
    destruct (same_session_default _ Hc). by eexists.
  - rewrite !(run_agreed _ _ _ Hc), !decide_False by done. by eexists.
  - assert (comment_submitted ss = true) as Hs.
    { destruct Hguard as [Hguard|]; [|done]. destruct Hguard.
      destruct Hvalid as [H0|[H0|H0]]; rewrite Hc in H0; by simplify_eq. }
    rewrite !(run_thanks _ _ _ _ Hc Hne Hs), !decide_False by done.
    by eexists.
Qed.

(** C5. A click on the submit button with an empty or white-space-only
    comment falls through: the session state is as before, the store is
    not touched, and the page is the page of a run without a click, with
    the validation warning under the comment box when the box is
    shown.  The click is one on a rendered page: the comment box, if
    shown, has its key in the session state. *)
Theorem blank_comment_rejected (ss : SessionState) (db : DB) :
  box_registered ss db →
  forallb is_space (comment_text ss) = true →
  ∃ w, run (feedback_section (Some submit_feedback)) ss db = Next () w ∧
       same_session ss (session w) ∧
       (feedback_choice ss ≠ None → session w = ss) ∧
       store w = db ∧
       List.filter (λ e, negb (is_warning e)) (page w)
         = page (final (run (feedback_section None) ss db)) ∧
       (if comment_box_shown ss db
        then page w = page_comment_box (comment_text ss) ++
                      [validation_warning; Button btn_zmien_wybor]
        else page w = page (final (run (feedback_section None) ss db))).
Proof.
  intros Hreg Hblank%strip_blank. unfold box_registered in Hreg.
  destruct (comment_box_shown ss db) eqn:Hshown.
  - apply comment_box_shown_iff in Hshown as (c & Hc & Hne & Hs).
    rewrite !(run_comment_box _ _ _ _ Hc Hne Hs). cbv zeta.
    rewrite decide_True, !decide_False, Hblank by done.
    rewrite (register_present ss) by auto.
    by eexists.
  - destruct (choice_cases ss) as [Hc|[Hc|(c & Hc & Hne)]].
    + rewrite !(run_unanswered _ _ _ Hc), !decide_False by done.
      destruct (same_session_default _ Hc). by eexists.
    + rewrite !(run_agreed _ _ _ Hc), !decide_False by done. by eexists.
    + destruct (comment_submitted ss) eqn:Hs.
      * rewrite !(run_thanks _ _ _ _ Hc Hne Hs), !decide_False by done.
        by eexists.
      * assert (comment_box_shown ss db = true) as Hyes
          by (apply comment_box_shown_iff; by exists c).
        congruence.
Qed.

End Feedback.

(** ** The properties on the example session *)

Section Examples.


Lemma after_submission_reachable :
  reachable after_submission.1 after_submission.2.
Proof. apply (reachable_play disagree_and_comment). constructor. Qed.

Lemma submitted_only_when_disagreeing_witness :
  (reachable after_submission.1 after_submission.2 ∧
   comment_submitted after_submission.1 = true) ∧
  choice_made after_submission.1 = Some nie_pasuje.
Proof.
  assert (comment_submitted after_submission.1 = true) as H2
    by (vm_compute; reflexivity).
  split; [split; [exact after_submission_reachable|exact H2]|].
  exact (submitted_only_when_disagreeing _ _ after_submission_reachable H2).
Defined.



(** When the rerun that the submission started has finished, the text
    is gone. *)
Example text_dropped_when_rerun_finished :
  script_finished (run (app (lit "A") None)
                       after_submission.1 after_submission.2) =
    (del_feedback_textarea after_submission.1, after_submission.2).
Proof. vm_compute. reflexivity. Qed.



Lemma persisted_text_is_trimmed_witness :
  (choice_made before_submission.1 = Some nie_pasuje ∧
   comment_submitted before_submission.1 = false ∧
   strip (comment_text before_submission.1) ≠ [] ∧
   Qdrant.connect one_note = inr one_note) ∧
  ∃ point text,
    store (final (run (feedback_section (Some submit_feedback))
                      before_submission.1 one_note))
      = one_note ++ [point] ∧
    Qdrant.payload point = {[ "text"%string := text ]} ∧
    Qdrant.payload point !! "text"%string = Some text ∧
    text = strip (lit " too vague ") ∧
    trimmed_of (lit " too vague ") text ∧
    Qdrant.vector point = [float_zero].
Proof.
  assert (choice_made before_submission.1 = Some nie_pasuje) as H1
    by (vm_compute; reflexivity).
  assert (comment_submitted before_submission.1 = false) as H2
    by (vm_compute; reflexivity).
  assert (strip (comment_text before_submission.1) ≠ []) as H3
    by (vm_compute; discriminate).
  split; [by repeat split|].
  exact (persisted_text_is_trimmed before_submission.1 one_note one_note
           H1 H2 H3 eq_refl).
Defined.

Lemma explicit_reset_witness :
  choice_made after_submission.1 ≠ None ∧
  ∃ w, run (feedback_section (Some btn_zmien_wybor))
           after_submission.1 after_submission.2 = Rerun w ∧
       session w =
         {| current_cluster_id := Some (lit "A");
            feedback_choice := Some None;
            feedback_comment_submitted := Some false;
            feedback_textarea := None |} ∧
       store w = after_submission.2.
Proof.
  assert (choice_made after_submission.1 ≠ None) as H1
    by (vm_compute; discriminate).
  split; [exact H1|].
  exact (explicit_reset after_submission.1 after_submission.2 H1).
Defined.

Lemma submission_guard_witness :
  (valid_choice after_submission.1 ∧
   (choice_made after_submission.1 ≠ Some nie_pasuje ∨
    comment_submitted after_submission.1 = true)) ∧
  ∃ w, run (feedback_section (Some submit_feedback))
           after_submission.1 after_submission.2 = Next () w ∧
       run (feedback_section None)
           after_submission.1 after_submission.2 = Next () w ∧
       same_session after_submission.1 (session w) ∧
       (feedback_choice after_submission.1 ≠ None →
        session w = after_submission.1) ∧
       store w = after_submission.2.
Proof.
  assert (valid_choice after_submission.1) as H1
    by (right; right; vm_compute; reflexivity).
  assert (choice_made after_submission.1 ≠ Some nie_pasuje ∨
          comment_submitted after_submission.1 = true) as H2
    by (right; vm_compute; reflexivity).
  split; [by split|].
  exact (submission_guard after_submission.1 after_submission.2 H1 H2).
Defined.

Lemma blank_comment_rejected_witness :
  (box_registered blank_comment one_note ∧
   forallb is_space (comment_text blank_comment) = true) ∧
  ∃ w, run (feedback_section (Some submit_feedback)) blank_comment one_note
         = Next () w ∧
       same_session blank_comment (session w) ∧
       (feedback_choice blank_comment ≠ None → session w = blank_comment) ∧
       store w = one_note ∧
       List.filter (λ e, negb (is_warning e)) (page w)
         = page (final (run (feedback_section None) blank_comment one_note)) ∧
       (if comment_box_shown blank_comment one_note
        then page w = page_comment_box (comment_text blank_comment) ++
                      [validation_warning; Button btn_zmien_wybor]
        else page w
             = page (final (run (feedback_section None) blank_comment one_note))).
Proof.
  assert (box_registered blank_comment one_note) as H0
    by (intros _; vm_compute; eexists; reflexivity).
  assert (forallb is_space (comment_text blank_comment) = true) as H1
    by (vm_compute; reflexivity).
  split; [by split|].
  exact (blank_comment_rejected blank_comment one_note H0 H1).
Defined.

(** The two scenarios of section 8 of the specification, run on the
    script. *)
Example scenario_comment_then_new_cluster :
  before_submission.1 =
    {| current_cluster_id := Some (lit "A");
       feedback_choice := Some (Some nie_pasuje);
       feedback_comment_submitted := None;
       feedback_textarea := Some (lit " too vague ") |} ∧
  after_submission.2 = one_note ++ [note_point 1 (lit " too vague ")] ∧
  Qdrant.payload (note_point 1 (lit " too vague ")) !! "text"%string
    = Some (lit "too vague") ∧
  comment_submitted after_submission.1 = true ∧
  (play [Assign (lit "B"); Render None] after_submission).1 =
    {| current_cluster_id := Some (lit "B");
       feedback_choice := Some None;
       feedback_comment_submitted := Some false;
       feedback_textarea := None |}.
Proof. repeat split; vm_compute; reflexivity. Qed.

Example scenario_agree_then_reset :
  (play [Assign (lit "A"); Render None; Render (Some btn_pasuje); Render None;
         Render (Some btn_zmien_wybor); Render None]
        (empty_session, one_note)).1 =
    {| current_cluster_id := Some (lit "A");
       feedback_choice := Some None;
       feedback_comment_submitted := Some false;
       feedback_textarea := None |}.
Proof. vm_compute. reflexivity. Qed.

End Examples.

(** ** More on the runs of the script *)

Section Runs.
Context {DB : Type} `{!Qdrant.Client DB}.

(** A run of the script is the feedback part on the session that line
    103 leaves. *)
Lemma run_app c clicked ss (db : DB) :
  run (app c clicked) ss db =
  run (feedback_section clicked) (reset_feedback_on_cluster_change c ss) db.
Proof. reflexivity. Qed.

Lemma reset_sets_cluster c ss :
  current_cluster_id (reset_feedback_on_cluster_change c ss) = Some c.
Proof.
  unfold reset_feedback_on_cluster_change.
  destruct (current_cluster_id ss) as [cur|] eqn:Hcur; [|done].
  case_decide as Hne; [cbn; by destruct (decide (is_Some _))|].
  rewrite Hcur. destruct (decide (cur = c)) as [->|Hcur']; [done|].
  by destruct Hne.
Qed.

(** The feedback part leaves [current_cluster_id] alone and leaves
    [feedback_choice] set. *)
Lemma feedback_section_session clicked ss (db : DB) :
  current_cluster_id (session (final (run (feedback_section clicked) ss db)))
    = current_cluster_id ss ∧
  feedback_choice (session (final (run (feedback_section clicked) ss db)))
    ≠ None.
Proof.
  destruct (choice_cases ss) as [Hc|[Hc|(c & Hc & Hne)]].
  - rewrite (run_unanswered _ _ _ Hc). by repeat case_decide.
  - rewrite (run_agreed _ _ _ Hc).
    apply choice_made_Some in Hc. case_decide; cbn; by rewrite ?Hc.
  - apply choice_made_Some in Hc as Hc'.
    destruct (comment_submitted ss) eqn:Hs.
    + rewrite (run_thanks _ _ _ _ Hc Hne Hs).
      case_decide; cbn; by rewrite ?Hc'.
    + rewrite (run_comment_box _ _ _ _ Hc Hne Hs). cbv zeta.
      repeat case_decide;
        try destruct (truthy _); try destruct (Qdrant.connect db);
        cbn; by rewrite ?Hc'.
Qed.


Lemma app_session c clicked ss (db : DB) :
  current_cluster_id (session (final (run (app c clicked) ss db))) = Some c ∧
  feedback_choice (session (final (run (app c clicked) ss db))) ≠ None.
Proof.
  rewrite run_app.
  destruct (feedback_section_session clicked
              (reset_feedback_on_cluster_change c ss) db) as [Hcur Hch].
  split; [|done]. rewrite Hcur. apply reset_sets_cluster.
Qed.

(** X1. While no choice is made, a click on one of the two choice
    buttons stores the choice of that button and reruns; the other
    entries of the session state and the store are left alone. *)
Theorem choice_click_records_choice (b : button) (v : pystr)
    (ss : SessionState) (db : DB) :
  choice_made ss = None →
  choice_of_button b = Some v →
  ∃ w, run (feedback_section (Some b)) ss db = Rerun w ∧
       session w = set_feedback_choice (Some v) ss ∧
       choice_made (session w) = Some v ∧
       store w = db.
Proof.
  intros Hc Hb. rewrite (run_unanswered _ _ _ Hc).
  destruct b; cbn in Hb; simplify_eq;
    repeat case_decide; try done; by eexists.
Qed.



(** X4. After a run of the script, however it ends, the session has the
    predicted cluster as its current cluster and has the entry
    [feedback_choice]. *)
Theorem app_tracks_prediction (c : pystr) (clicked : option button)
    (ss : SessionState) (db : DB) :
  current_cluster_id (session (final (run (app c clicked) ss db))) = Some c ∧
  feedback_choice (session (final (run (app c clicked) ss db))) ≠ None.
Proof. apply app_session. Qed.


(** What a run of the feedback part does to the store: nothing, or, on
    a click on the submit button while the comment box is open on more
    than white space and the client is there, the upsert of the note. *)
Lemma render_store clicked ss (db : DB) :
  store (final (run (feedback_section clicked) ss db)) = db ∨
  (clicked = Some submit_feedback ∧
   (∃ c, choice_made ss = Some c ∧ c ≠ pasuje) ∧
   comment_submitted ss = false ∧
   strip (comment_text ss) ≠ [] ∧
   ∃ db', Qdrant.connect db = inr db' ∧
     store (final (run (feedback_section clicked) ss db))
       = Qdrant.upsert [note_point (Qdrant.count db') (comment_text ss)] db').
Proof.
  destruct (choice_cases ss) as [Hc|[Hc|(c & Hc & Hne)]].
  - left. rewrite (run_unanswered _ _ _ Hc). by repeat case_decide.
  - left. rewrite (run_agreed _ _ _ Hc). by case_decide.
  - destruct (comment_submitted ss) eqn:Hs.
    + left. rewrite (run_thanks _ _ _ _ Hc Hne Hs). by case_decide.
    + rewrite (run_comment_box _ _ _ _ Hc Hne Hs). cbv zeta.
      case_decide as Hclick; [|left; by case_decide].
      destruct (strip (comment_text ss)) eqn:Ht; [by left|]. cbn.
      destruct (Qdrant.connect db) as [err|db']; [by left|].
      right. cbn. repeat split; eauto.
Qed.

(** The assignment of a new cluster to a session that had another. *)
Lemma reset_on_change c cur ss :
  current_cluster_id ss = Some cur → c ≠ cur →
  reset_feedback_on_cluster_change c ss =
    set_current_cluster_id c (feedback_cleared ss).
Proof.
  intros Hcur Hne. unfold reset_feedback_on_cluster_change.
  rewrite Hcur. rewrite decide_True by congruence.
  cbn. case_decide as Ht; [reflexivity|].
  apply eq_None_not_Some in Ht. cbn in Ht.
  unfold set_feedback_comment_submitted, set_current_cluster_id.
  cbn. by rewrite Ht.
Qed.

(** X6. A run of the feedback part changes the store by at most one
    upsert, made on the store that [get_qdrant_client] returns, and
    only on a click on the submit button with a comment that is more
    than white space: no empty note is ever stored. *)
Theorem run_upserts_at_most_one_note (clicked : option button)
    (ss : SessionState) (db : DB) :
  store (final (run (feedback_section clicked) ss db)) = db ∨
  (clicked = Some submit_feedback ∧
   strip (comment_text ss) ≠ [] ∧
   ∃ db', Qdrant.connect db = inr db' ∧
     store (final (run (feedback_section clicked) ss db))
       = Qdrant.upsert [note_point (Qdrant.count db') (comment_text ss)] db').
Proof.
  destruct (render_store clicked ss db) as [?|(? & _ & _ & ? & ?)]; auto.
Qed.

(** X7. [add_note_to_db] has its own guard: called while the stored
    comment is empty or white space only, it returns without a call on
    the client and leaves everything as it is. *)
Theorem add_note_to_db_blank (w : world DB) :
  forallb is_space (comment_text (session w)) = true →
  add_note_to_db w = Next () w.
Proof.
  intros Hblank%strip_blank. unfold add_note_to_db.
  rewrite bind_run. cbn. unfold comment_text in Hblank.
  by rewrite Hblank.
Qed.

(** X8. A comment is stored once: after a successful submission (one
    for which [get_qdrant_client] returns the client) a second click on
    the submit button changes neither the session state nor the
    store. *)
Theorem second_submission_is_ignored (ss : SessionState) (db db' : DB)
    (c : pystr) :
  choice_made ss = Some c → c ≠ pasuje →
  comment_submitted ss = false →
  strip (comment_text ss) ≠ [] →
  Qdrant.connect db = inr db' →
  handle (Render (Some submit_feedback)) (ss, db) =
    (set_feedback_comment_submitted true ss,
     Qdrant.upsert [note_point (Qdrant.count db') (comment_text ss)] db') ∧
  handle (Render (Some submit_feedback))
         (handle (Render (Some submit_feedback)) (ss, db)) =
    handle (Render (Some submit_feedback)) (ss, db).
Proof.
  intros Hc Hne Hs Ht Hdb.
  assert (handle (Render (Some submit_feedback)) (ss, db) =
    (set_feedback_comment_submitted true ss,
     Qdrant.upsert [note_point (Qdrant.count db') (comment_text ss)] db'))
    as Hfirst.
  { cbn. rewrite (run_comment_box _ _ _ _ Hc Hne Hs). cbv zeta.
    rewrite decide_True, Hdb, (register_text _ Ht) by done.
    by destruct (strip (comment_text ss)). }
  split; [done|]. rewrite Hfirst. cbn.
  rewrite (run_thanks _ (set_feedback_comment_submitted true ss) _ c)
    by done.
  by rewrite decide_False.
Qed.

(** X9. After "Zmień wybór" the comment box starts empty: whatever was
    typed before, a new click on "Opis nie pasuje do mnie" shows the box
    without text, and its key is registered with the empty string. *)
Theorem reset_empties_comment_box (ss : SessionState) (db : DB) :
  choice_made ss ≠ None →
  play [Render (Some btn_zmien_wybor); Render (Some btn_nie_pasuje)] (ss, db)
    = (set_feedback_choice (Some nie_pasuje) (feedback_cleared ss), db) ∧
  run (feedback_section None)
      (set_feedback_choice (Some nie_pasuje) (feedback_cleared ss)) db =
    Next () (World (set_feedback_textarea []
                      (set_feedback_choice (Some nie_pasuje)
                         (feedback_cleared ss)))
                   db
                   (page_comment_box [] ++ [Button btn_zmien_wybor])).
Proof.
  intros Hsome.
  assert (handle (Render (Some btn_zmien_wybor)) (ss, db)
          = (feedback_cleared ss, db)) as Hreset.
  { cbn.
    destruct (choice_cases ss) as [Hc|[Hc|(c & Hc & Hne)]]; [done|..].
    - by rewrite (run_agreed _ _ _ Hc), decide_True.
    - destruct (comment_submitted ss) eqn:Hs.
      + by rewrite (run_thanks _ _ _ _ Hc Hne Hs), decide_True.
      + rewrite (run_comment_box _ _ _ _ Hc Hne Hs). cbv zeta.
        by rewrite decide_False, decide_True. }
  split.
  - unfold play. cbn [foldl]. rewrite Hreset. cbn.
    rewrite (run_unanswered _ (feedback_cleared ss)) by done.
    by rewrite decide_False, decide_True.
  - rewrite (run_comment_box _ _ _ nie_pasuje)
      by (done || apply nie_pasuje_ne_pasuje).
    cbv zeta. by rewrite !decide_False.
Qed.

(** X10. After the call the current cluster is the new one, and a
    second assignment of the same cluster changes nothing. *)
Theorem assignment_is_idempotent (c : pystr) (ss : SessionState) :
  current_cluster_id (reset_feedback_on_cluster_change c ss) = Some c ∧
  reset_feedback_on_cluster_change c (reset_feedback_on_cluster_change c ss)
    = reset_feedback_on_cluster_change c ss.
Proof.
  split; [apply reset_sets_cluster|].
  pose proof (reset_sets_cluster c ss) as Hcur.
  unfold reset_feedback_on_cluster_change at 1.
  rewrite Hcur. by rewrite decide_False by (by intros []).
Qed.

Lemma button_on_page (b : button) (p : list element) :
  Button b ∈ p ↔ existsb (is_button b) p = true.
Proof.
  induction p as [|e p IH]; cbn.
  - rewrite elem_of_nil. by split.
  - rewrite elem_of_cons, IH, orb_true_iff. apply or_iff_compat_r.
    destruct e as [b'| | | |]; cbn; try (split; [by intros [=]|done]).
    destruct (button_eq_dec b' b) as [->|Hne]; [done|].
    split; [|done]. by intros [= ->].
Qed.

(** X11. The button "Zmień wybór" is on the page exactly when a choice
    is made. *)
Theorem reset_button_shown_iff (ss : SessionState) (db : DB) :
  Button btn_zmien_wybor ∈ page (final (run (feedback_section None) ss db))
  ↔ choice_made ss ≠ None.
Proof.
  rewrite button_on_page.
  destruct (choice_cases ss) as [Hc|[Hc|(c & Hc & Hne)]].
  - rewrite (run_unanswered _ _ _ Hc), !decide_False by done.
    rewrite Hc. by split.
  - rewrite (run_agreed _ _ _ Hc), decide_False by done.
    rewrite Hc. by split.
  - rewrite Hc. destruct (comment_submitted ss) eqn:Hs.
    + rewrite (run_thanks _ _ _ _ Hc Hne Hs), decide_False by done.
      by split.
    + rewrite (run_comment_box _ _ _ _ Hc Hne Hs). cbv zeta.
      rewrite !decide_False by done. by split.
Qed.

(** X12. The submit button is on the page exactly while the choice is
    neither [None] nor "pasuje" and no comment was submitted, and so is
    the comment box. *)
Theorem submit_button_shown_iff (ss : SessionState) (db : DB) :
  (Button submit_feedback ∈ page (final (run (feedback_section None) ss db))
   ↔ ∃ c, choice_made ss = Some c ∧ c ≠ pasuje ∧ comment_submitted ss = false)
  ∧
  (Button submit_feedback ∈ page (final (run (feedback_section None) ss db))
   ↔ comment_box_shown ss db = true).
Proof.
  rewrite button_on_page. unfold comment_box_shown.
  destruct (choice_cases ss) as [Hc|[Hc|(c & Hc & Hne)]].
  - rewrite (run_unanswered _ _ _ Hc), !decide_False by done.
    split; [|done]. split; [done|]. intros (c & Hc' & _). congruence.
  - rewrite (run_agreed _ _ _ Hc), decide_False by done.
    split; [|done]. split; [done|]. intros (c & Hc' & Hne & _). congruence.
  - destruct (comment_submitted ss) eqn:Hs.
    + rewrite (run_thanks _ _ _ _ Hc Hne Hs), decide_False by done.
      split; [|done]. split; [done|]. by intros (c' & _ & _ & ?).
    + rewrite (run_comment_box _ _ _ _ Hc Hne Hs). cbv zeta.
      rewrite !decide_False by done.
      split; [|done]. split; [|done]. intros _. by exists c.
Qed.

(** X14. A run in which the predicted cluster changes accepts no
    comment: a click on the submit button of the page before falls
    through on the cleared session, and nothing is stored. *)
Theorem cluster_change_blocks_submission (ss : SessionState) (db : DB)
    (cur c : pystr) :
  current_cluster_id ss = Some cur →
  c ≠ cur →
  run (app c (Some submit_feedback)) ss db =
    Next () (World (set_current_cluster_id c (feedback_cleared ss)) db
                   page_unanswered).
Proof.
  intros Hcur Hne. rewrite run_app, (reset_on_change _ _ _ Hcur Hne).
  rewrite run_unanswered by done. by rewrite !decide_False.
Qed.

End Runs.

(** ** The ids of the notes *)

Section Ids.

Lemma handle_sequential ev ss (db : list Qdrant.PointStruct) :
  sequential db →
  sequential (handle ev (ss, db)).2 ∧ db `prefix_of` (handle ev (ss, db)).2.
Proof.
  intros Hseq. destruct ev as [c|clicked|text|]; cbn.
  - done.
  - destruct (render_store clicked ss db)
      as [->|(_ & _ & _ & _ & db' & [= <-] & ->)]; [done|].
    split; [|by apply prefix_app_r].
    unfold sequential in *. cbn.
    rewrite fmap_app, length_app, Hseq. cbn.
    rewrite Nat.add_1_r, seqZ_S. do 2 f_equal. lia.
  - by destruct (comment_box_shown ss db).
  - by destruct (comment_box_shown ss db).
Qed.

(** X13. With the append-only note store and no other writer, a session
    keeps the ids of the notes sequential: from a store whose ids are
    1, 2, ..., n, whatever the user does, the notes that were there
    stay, the ids are again 1, 2, ..., and no two notes share an id. *)
Theorem session_keeps_ids_sequential (evs : list event) (ss : SessionState)
    (db : list Qdrant.PointStruct) :
  sequential db →
  sequential (play evs (ss, db)).2 ∧
  db `prefix_of` (play evs (ss, db)).2 ∧
  NoDup (Qdrant.id <$> (play evs (ss, db)).2).
Proof.
  intros Hseq.
  enough (sequential (play evs (ss, db)).2 ∧
          db `prefix_of` (play evs (ss, db)).2) as [Hs Hp].
  { repeat split; [done..|]. rewrite Hs. apply NoDup_seqZ. }
  revert ss db Hseq. induction evs as [|ev evs IH]; intros ss db Hseq; [done|].
  cbn. destruct (handle_sequential ev ss db Hseq) as [Hseq' Hpre].
  destruct (handle ev (ss, db)) as [ss' db'].
  destruct (IH ss' db' Hseq') as [Hs Hp]. split; [done|].
  by transitivity db'.
Qed.

Lemma session_keeps_ids_sequential_witness :
  sequential one_note ∧
  sequential (play disagree_and_comment (empty_session, one_note)).2 ∧
  one_note `prefix_of` (play disagree_and_comment (empty_session, one_note)).2 ∧
  NoDup (Qdrant.id <$> (play disagree_and_comment (empty_session, one_note)).2).
Proof.
  assert (sequential one_note) as H1 by (vm_compute; reflexivity).
  split; [exact H1|].
  exact (session_keeps_ids_sequential disagree_and_comment empty_session
           one_note H1).
Defined.

End Ids.

(** ** Secrets and the client *)

Section Client.
Context {V : Type}.

(** X15. Of the deployment's secrets only [QDRANT_URL] and
    [QDRANT_API_KEY] are read, and each of them, when set, replaces the
    value of the file [.env]; every other entry is that of [.env]. *)
Theorem load_env_lookup (dotenv secrets : gmap string V) (k : string) :
  load_env dotenv secrets !! k =
    if decide (k = "QDRANT_URL"%string ∨ k = "QDRANT_API_KEY"%string)
    then match secrets !! k with
         | Some v => Some v
         | None => dotenv !! k
         end
    else dotenv !! k.
Proof.
  unfold load_env.
  destruct (secrets !! "QDRANT_URL"%string) as [u|] eqn:Hu,
           (secrets !! "QDRANT_API_KEY"%string) as [a|] eqn:Ha;
    case_decide as Hk;
    try (destruct Hk as [-> | ->]; rewrite ?Hu, ?Ha);
    rewrite ?lookup_insert_eq;
    rewrite ?lookup_insert_ne by (done || (intros <-; tauto));
    rewrite ?lookup_insert_eq;
    done.
Qed.

Lemma collection_exists (name : string) (svc : gmap string Service.Collection) :
  name ∈ Service.get_collections svc ↔ is_Some (svc !! name).
Proof.
  unfold Service.get_collections. rewrite list_elem_of_fmap. split.
  - intros ([k coll] & -> & Hin). apply elem_of_map_to_list in Hin. by exists coll.
  - intros [coll Hcoll]. exists (name, coll).
    split; [done|]. by apply elem_of_map_to_list.
Qed.

(** X16. [get_qdrant_client] raises [KeyError] for the first of
    [QDRANT_URL], [QDRANT_API_KEY] that the environment lacks, and
    otherwise returns a client with the two values of the
    environment. *)
Theorem get_qdrant_client_key_error (env : gmap string V)
    (svc : gmap string Service.Collection) :
  match get_qdrant_client env svc with
  | inl (KeyError k) =>
      env !! k = None ∧
      (k = "QDRANT_URL"%string ∨
       k = "QDRANT_API_KEY"%string ∧ is_Some (env !! "QDRANT_URL"%string))
  | inr (client, _) =>
      env !! "QDRANT_URL"%string = Some (Service.url client) ∧
      env !! "QDRANT_API_KEY"%string = Some (Service.api_key client)
  end.
Proof.
  unfold get_qdrant_client.
  destruct (env !! "QDRANT_URL"%string) as [u|] eqn:Hu; [|by auto].
  destruct (env !! "QDRANT_API_KEY"%string) as [a|] eqn:Ha; [|by eauto].
  by case_decide.
Qed.

(** X17. A collection [user_feedback] that exists is not created again:
    the service, and with it the notes stored so far, is as before. *)
Theorem get_qdrant_client_keeps_collection (env : gmap string V)
    (svc : gmap string Service.Collection) (url api_key : V)
    (coll : Service.Collection) :
  env !! "QDRANT_URL"%string = Some url →
  env !! "QDRANT_API_KEY"%string = Some api_key →
  svc !! QDRANT_COLLECTION_NAME = Some coll →
  get_qdrant_client env svc =
    inr ({| Service.url := url; Service.api_key := api_key |}, svc).
Proof.
  intros Hu Ha Hcoll. unfold get_qdrant_client. rewrite Hu, Ha.
  rewrite decide_False; [done|].
  intros Hnot. apply Hnot, collection_exists. by exists coll.
Qed.

(** X18. A missing collection [user_feedback] is created empty, with
    vectors of size [VECTOR_SIZE] and the cosine distance; the other
    collections of the service are as before, and the points that
    [add_note_to_db] builds have vectors of that size. *)
Theorem get_qdrant_client_creates_collection (env : gmap string V)
    (svc : gmap string Service.Collection) (url api_key : V) :
  env !! "QDRANT_URL"%string = Some url →
  env !! "QDRANT_API_KEY"%string = Some api_key →
  svc !! QDRANT_COLLECTION_NAME = None →
  ∃ svc',
    get_qdrant_client env svc =
      inr ({| Service.url := url; Service.api_key := api_key |}, svc') ∧
    svc' !! QDRANT_COLLECTION_NAME =
      Some {| Service.vectors_config :=
                {| Service.size := VECTOR_SIZE;
                   Service.distance := Service.COSINE |};
              Service.points := [] |} ∧
    (∀ name, name ≠ QDRANT_COLLECTION_NAME → svc' !! name = svc !! name) ∧
    (∀ count text,
       Z.of_nat (length (Qdrant.vector (note_point count text)))
         = VECTOR_SIZE).
Proof.
  intros Hu Ha Hcoll. unfold get_qdrant_client. rewrite Hu, Ha.
  rewrite decide_True.
  - eexists. split; [reflexivity|]. unfold Service.create_collection. split.
    + by rewrite lookup_insert_eq.
    + split; [|done]. intros name Hne. by rewrite lookup_insert_ne.
  - rewrite collection_exists, Hcoll. by intros [? [=]].
Qed.

(** X19. A second call has nothing left to do: on the service a
    successful call leaves, the call returns the same client and the
    same service. *)
Theorem get_qdrant_client_idempotent (env : gmap string V)
    (svc svc' : gmap string Service.Collection)
    (client : Service.QdrantClient V) :
  get_qdrant_client env svc = inr (client, svc') →
  get_qdrant_client env svc' = inr (client, svc').
Proof.
  unfold get_qdrant_client.
  destruct (env !! "QDRANT_URL"%string) as [u|]; [|done].
  destruct (env !! "QDRANT_API_KEY"%string) as [a|]; [|done].
  case_decide as Hnew; intros [= <- <-].
  - rewrite decide_False; [done|].
    intros Hnot. apply Hnot, collection_exists.
    unfold Service.create_collection. by rewrite lookup_insert_eq.
  - by rewrite decide_False by (by intros ?).
Qed.

(** X20. With both secrets set, the client is built from the secrets,
    whatever the file [.env] says. *)
Theorem client_uses_secrets_first (dotenv secrets : gmap string V)
    (svc : gmap string Service.Collection) (url api_key : V) :
  secrets !! "QDRANT_URL"%string = Some url →
  secrets !! "QDRANT_API_KEY"%string = Some api_key →
  ∃ svc',
    get_qdrant_client (load_env dotenv secrets) svc =
      inr ({| Service.url := url; Service.api_key := api_key |}, svc').
Proof.
  intros Hu Ha. unfold get_qdrant_client, load_env. rewrite Hu, Ha.
  rewrite lookup_insert_ne, !lookup_insert_eq by done.
  case_decide; by eexists.
Qed.

End Client.

(** ** The further properties on the examples *)

Section MoreExamples.

Lemma choice_click_records_choice_witness :
  (choice_made empty_session = None ∧
   choice_of_button btn_nie_pasuje = Some nie_pasuje) ∧
  ∃ w, run (feedback_section (Some btn_nie_pasuje)) empty_session one_note
         = Rerun w ∧
       session w = set_feedback_choice (Some nie_pasuje) empty_session ∧
       choice_made (session w) = Some nie_pasuje ∧
       store w = one_note.
Proof.
  assert (choice_made empty_session = None) as H1 by reflexivity.
  assert (choice_of_button btn_nie_pasuje = Some nie_pasuje) as H2
    by reflexivity.
  split; [by split|].
  exact (choice_click_records_choice btn_nie_pasuje nie_pasuje
           empty_session one_note H1 H2).
Defined.




Lemma add_note_to_db_blank_witness :
  forallb is_space (comment_text blank_comment) = true ∧
  add_note_to_db (World blank_comment one_note [])
    = Next () (World blank_comment one_note []).
Proof.
  assert (forallb is_space
            (comment_text (session (World blank_comment one_note [])))
          = true) as H1 by (vm_compute; reflexivity).
  split; [exact H1|].
  exact (add_note_to_db_blank (World blank_comment one_note []) H1).
Defined.

Lemma second_submission_is_ignored_witness :
  (choice_made before_submission.1 = Some nie_pasuje ∧
   nie_pasuje ≠ pasuje ∧
   comment_submitted before_submission.1 = false ∧
   strip (comment_text before_submission.1) ≠ [] ∧
   Qdrant.connect one_note = inr one_note) ∧
  handle (Render (Some submit_feedback)) (before_submission.1, one_note) =
    (set_feedback_comment_submitted true before_submission.1,
     one_note ++ [note_point 1 (comment_text before_submission.1)]) ∧
  handle (Render (Some submit_feedback))
         (handle (Render (Some submit_feedback))
                 (before_submission.1, one_note)) =
    handle (Render (Some submit_feedback)) (before_submission.1, one_note).
Proof.
  assert (choice_made before_submission.1 = Some nie_pasuje) as H1
    by (vm_compute; reflexivity).
  assert (nie_pasuje ≠ pasuje) as H2 by discriminate.
  assert (comment_submitted before_submission.1 = false) as H3
    by (vm_compute; reflexivity).
  assert (strip (comment_text before_submission.1) ≠ []) as H4
    by (vm_compute; discriminate).
  split; [by repeat split|].
  exact (second_submission_is_ignored before_submission.1 one_note one_note
           nie_pasuje H1 H2 H3 H4 eq_refl).
Defined.

Lemma reset_empties_comment_box_witness :
  choice_made after_submission.1 ≠ None ∧
  play [Render (Some btn_zmien_wybor); Render (Some btn_nie_pasuje)]
       (after_submission.1, after_submission.2)
    = (set_feedback_choice (Some nie_pasuje)
         (feedback_cleared after_submission.1), after_submission.2) ∧
  run (feedback_section None)
      (set_feedback_choice (Some nie_pasuje)
         (feedback_cleared after_submission.1)) after_submission.2 =
    Next () (World (set_feedback_textarea []
                      (set_feedback_choice (Some nie_pasuje)
                         (feedback_cleared after_submission.1)))
                   after_submission.2
                   (page_comment_box [] ++ [Button btn_zmien_wybor])).
Proof.
  assert (choice_made after_submission.1 ≠ None) as H1
    by (vm_compute; discriminate).
  split; [exact H1|].
  exact (reset_empties_comment_box after_submission.1 after_submission.2 H1).
Defined.

Lemma cluster_change_blocks_submission_witness :
  (current_cluster_id before_submission.1 = Some (lit "A") ∧
   lit "B" ≠ lit "A") ∧
  run (app (lit "B") (Some submit_feedback)) before_submission.1 one_note =
    Next () (World (set_current_cluster_id (lit "B")
                      (feedback_cleared before_submission.1))
                   one_note page_unanswered).
Proof.
  assert (current_cluster_id before_submission.1 = Some (lit "A")) as H1
    by (vm_compute; reflexivity).
  assert (lit "B" ≠ lit "A") as H2 by (vm_compute; discriminate).
  split; [by split|].
  exact (cluster_change_blocks_submission before_submission.1 one_note
           (lit "A") (lit "B") H1 H2).
Defined.

Lemma get_qdrant_client_keeps_collection_witness :
  (example_env !! "QDRANT_URL"%string = Some "https://qdrant.example"%string ∧
   example_env !! "QDRANT_API_KEY"%string = Some "from-dotenv"%string ∧
   service_with_feedback !! QDRANT_COLLECTION_NAME =
     Some {| Service.vectors_config :=
               {| Service.size := VECTOR_SIZE;
                  Service.distance := Service.COSINE |};
             Service.points := one_note |}) ∧
  get_qdrant_client example_env service_with_feedback =
    inr ({| Service.url := "https://qdrant.example"%string;
            Service.api_key := "from-dotenv"%string |},
         service_with_feedback).
Proof.
  assert (example_env !! "QDRANT_URL"%string
          = Some "https://qdrant.example"%string) as H1
    by (vm_compute; reflexivity).
  assert (example_env !! "QDRANT_API_KEY"%string
          = Some "from-dotenv"%string) as H2
    by (vm_compute; reflexivity).
  assert (service_with_feedback !! QDRANT_COLLECTION_NAME =
     Some {| Service.vectors_config :=
               {| Service.size := VECTOR_SIZE;
                  Service.distance := Service.COSINE |};
             Service.points := one_note |}) as H3
    by (vm_compute; reflexivity).
  split; [by repeat split|].
  exact (get_qdrant_client_keeps_collection example_env service_with_feedback
           _ _ _ H1 H2 H3).
Defined.

Lemma get_qdrant_client_creates_collection_witness :
  (example_env !! "QDRANT_URL"%string = Some "https://qdrant.example"%string ∧
   example_env !! "QDRANT_API_KEY"%string = Some "from-dotenv"%string ∧
   service_without_feedback !! QDRANT_COLLECTION_NAME = None) ∧
  ∃ svc',
    get_qdrant_client example_env service_without_feedback =
      inr ({| Service.url := "https://qdrant.example"%string;
              Service.api_key := "from-dotenv"%string |}, svc') ∧
    svc' !! QDRANT_COLLECTION_NAME =
      Some {| Service.vectors_config :=
                {| Service.size := VECTOR_SIZE;
                   Service.distance := Service.COSINE |};
              Service.points := [] |} ∧
    (∀ name, name ≠ QDRANT_COLLECTION_NAME →
             svc' !! name = service_without_feedback !! name) ∧
    (∀ count text,
       Z.of_nat (length (Qdrant.vector (note_point count text)))
         = VECTOR_SIZE).
Proof.
  assert (example_env !! "QDRANT_URL"%string
          = Some "https://qdrant.example"%string) as H1
    by (vm_compute; reflexivity).
  assert (example_env !! "QDRANT_API_KEY"%string
          = Some "from-dotenv"%string) as H2
    by (vm_compute; reflexivity).
  assert (service_without_feedback !! QDRANT_COLLECTION_NAME = None) as H3
    by (vm_compute; reflexivity).
  split; [by repeat split|].
  exact (get_qdrant_client_creates_collection example_env
           service_without_feedback _ _ H1 H2 H3).
Defined.

Lemma get_qdrant_client_idempotent_witness :
  get_qdrant_client example_env service_without_feedback =
    inr ({| Service.url := "https://qdrant.example"%string;
            Service.api_key := "from-dotenv"%string |},
         Service.create_collection QDRANT_COLLECTION_NAME
           {| Service.size := VECTOR_SIZE; Service.distance := Service.COSINE |}
           service_without_feedback) ∧
  get_qdrant_client example_env
    (Service.create_collection QDRANT_COLLECTION_NAME
       {| Service.size := VECTOR_SIZE; Service.distance := Service.COSINE |}
       service_without_feedback) =
    inr ({| Service.url := "https://qdrant.example"%string;
            Service.api_key := "from-dotenv"%string |},
         Service.create_collection QDRANT_COLLECTION_NAME
           {| Service.size := VECTOR_SIZE; Service.distance := Service.COSINE |}
           service_without_feedback).
Proof.
  assert (get_qdrant_client example_env service_without_feedback =
    inr ({| Service.url := "https://qdrant.example"%string;
            Service.api_key := "from-dotenv"%string |},
         Service.create_collection QDRANT_COLLECTION_NAME
           {| Service.size := VECTOR_SIZE; Service.distance := Service.COSINE |}
           service_without_feedback)) as H1 by (vm_compute; reflexivity).
  split; [exact H1|].
  exact (get_qdrant_client_idempotent example_env service_without_feedback
           _ _ H1).
Defined.

Lemma client_uses_secrets_first_witness :
  (example_secrets !! "QDRANT_URL"%string
     = Some "https://secret.example"%string ∧
   example_secrets !! "QDRANT_API_KEY"%string = Some "from-secrets"%string) ∧
  ∃ svc',
    get_qdrant_client (load_env example_env example_secrets)
                      service_with_feedback =
      inr ({| Service.url := "https://secret.example"%string;
              Service.api_key := "from-secrets"%string |}, svc').
Proof.
  assert (example_secrets !! "QDRANT_URL"%string
          = Some "https://secret.example"%string) as H1
    by (vm_compute; reflexivity).
  assert (example_secrets !! "QDRANT_API_KEY"%string
          = Some "from-secrets"%string) as H2
    by (vm_compute; reflexivity).
  split; [by split|].
  exact (client_uses_secrets_first example_env example_secrets
           service_with_feedback _ _ H1 H2).
Defined.

End MoreExamples.
